(** * StyleAura catalog service (main.py)

    A shallow embedding of the three catalog operations of [main.py]:
    [seed_products] (POST /seed), [list_products] (GET /products) and
    [get_product] (GET /products/{product_id}), together with what they rest
    on: Python values and dicts, bson's [ObjectId], and the document store
    reached through the [database] module.

    Python floats are binary64 and are modelled by Rocq's primitive floats;
    dicts keep insertion order and are association lists. *)

From Stdlib Require Import ZArith List String Ascii Bool Lia PrimFloat.
Import ListNotations.
Local Open Scope string_scope.
Local Open Scope Z_scope.
Local Open Scope list_scope.

Set Warnings "-inexact-float,-register-all".

(* ------------------------------------------------------------------ *)
(** ** bson.ObjectId *)

(** An ObjectId is a 12-byte value, kept here as the 96-bit number its bytes
    spell in big-endian order. *)
Record ObjectId : Type := Oid { binary : Z }.

Definition ObjectId_eqb (a b : ObjectId) : bool := binary a =? binary b.

Definition hex_value (c : ascii) : option Z :=
  let n := Z.of_nat (nat_of_ascii c) in
  if (48 <=? n) && (n <=? 57) then Some (n - 48)
  else if (97 <=? n) && (n <=? 102) then Some (n - 87)
  else if (65 <=? n) && (n <=? 70) then Some (n - 55)
  else None.

Fixpoint unhexlify (s : string) (acc : Z) : option Z :=
  match s with
  | EmptyString => Some acc
  | String c s' =>
      match hex_value c with
      | Some d => unhexlify s' (16 * acc + d)
      | None => None
      end
  end.

(** The ObjectId that 24 hexadecimal digits spell; [None] for any other
    string. *)
Definition ObjectId_parse (oid : string) : option ObjectId :=
  if Nat.eqb (String.length oid) 24 then option_map Oid (unhexlify oid 0)
  else None.

Definition hex_char (d : Z) : ascii :=
  if d <? 10 then ascii_of_nat (Z.to_nat (48 + d))
  else ascii_of_nat (Z.to_nat (87 + d)).

Fixpoint hexlify (n : nat) (z : Z) (acc : string) : string :=
  match n with
  | O => acc
  | S n' => hexlify n' (z / 16) (String (hex_char (z mod 16)) acc)
  end.

(** [str(oid)]: 24 lower-case hexadecimal digits. *)
Definition ObjectId_str (o : ObjectId) : string := hexlify 24 (binary o) "".

(** ASCII whitespace, as [bytes.fromhex] skips it. *)
Definition is_space (c : ascii) : bool :=
  let n := nat_of_ascii c in
  (Nat.leb 9 n && Nat.leb n 13)%bool || Nat.eqb n 32.

(** [bytes.fromhex]: two hexadecimal digits per byte, whitespace between
    the bytes skipped; anything else is a [ValueError]. *)
Fixpoint fromhex (s : string) : option (list Z) :=
  match s with
  | EmptyString => Some []
  | String c s' =>
      if is_space c then fromhex s'
      else
        match hex_value c, s' with
        | Some top, String c' s'' =>
            match hex_value c' with
            | Some bot => option_map (cons (16 * top + bot)) (fromhex s'')
            | None => None
            end
        | _, _ => None
        end
  end.

(** [binascii.hexlify]. *)
Definition bytes_hex (bytes : list Z) : string :=
  fold_right (fun b rest => hexlify 2 b rest) "" bytes.

(* ------------------------------------------------------------------ *)
(** ** Python values *)

Inductive value : Type :=
| VNone
| VBool (b : bool)
| VInt (z : Z)
| VFloat (f : float)
| VStr (s : string)
| VOid (o : ObjectId)
| VList (l : list value)
| VDict (d : list (string * value))
| VShortOid (bytes : list Z).

(** [VShortOid] is an ObjectId object whose binary is not twelve bytes
    long: bson builds one from a string of 24 characters some of which are
    whitespace (see [ObjectId_new]). *)

(** A dict, in insertion order. *)
Definition dict : Type := list (string * value).

Inductive exn : Type :=
| HTTPException (status_code : Z) (detail : string)
| KeyError (key : string)
| TypeError
| InvalidId (oid : string)
| StoreError (kind : string).

(** The outcome of a call.  [Unmodelled] is not a Python outcome: it marks a
    store call whose query lies outside the query language modelled below. *)
Inductive outcome (A : Type) : Type :=
| Ok (a : A)
| Raise (e : exn)
| Unmodelled.

Arguments Ok {A} a.
Arguments Raise {A} e.
Arguments Unmodelled {A}.

Definition bind {A B : Type} (m : outcome A) (k : A -> outcome B) : outcome B :=
  match m with
  | Ok a => k a
  | Raise e => Raise e
  | Unmodelled => Unmodelled
  end.

Notation "x <- m ;; k" := (bind m (fun x => k))
  (at level 61, m at next level, right associativity).

(** [for x in xs: ...] where the body rebuilds [x]. *)
Fixpoint for_each {A B : Type} (body : A -> outcome B) (xs : list A)
  : outcome (list B) :=
  match xs with
  | [] => Ok []
  | x :: xs' =>
      y <- body x ;;
      ys <- for_each body xs' ;;
      Ok (y :: ys)
  end.

(** The spec's error taxonomy, as the exceptions [main.py] raises. *)
Definition StoreUnavailable : exn := HTTPException 500 "Database not configured".
Definition InvalidIdentifier : exn := HTTPException 400 "Invalid product id".
Definition NotFound : exn := HTTPException 404 "Product not found".

Definition float_of_Z (z : Z) : float :=
  let fix of_pos (p : positive) : float :=
    match p with
    | xH => 1%float
    | xO p' => (2 * of_pos p')%float
    | xI p' => (2 * of_pos p' + 1)%float
    end in
  match z with
  | Z0 => 0%float
  | Zpos p => of_pos p
  | Zneg p => (- of_pos p)%float
  end.

(** Comparing an integer with a float by value, as the store does, without
    rounding the integer. Integers up to 2^53 are floats themselves; a
    float beyond is a whole number, read off by halving it down to its
    53-bit mantissa. *)
Definition two53 : float := 9007199254740992%float.

Fixpoint halve_until (fuel : nat) (f : float) (e : Z) : option (float * Z) :=
  match fuel with
  | O => None
  | S fuel' =>
      if PrimFloat.ltb f two53 then Some (f, e)
      else halve_until fuel' (f / 2)%float (e + 1)
  end.

Fixpoint whole_below (bits : nat) (f : float) (acc : Z) : Z :=
  match bits with
  | O => acc
  | S bits' =>
      let more := acc + 2 ^ Z.of_nat bits' in
      if PrimFloat.leb (float_of_Z more) f then whole_below bits' f more
      else whole_below bits' f acc
  end.

(** The value of a finite float of at least 2^53; [None] for infinity and
    NaN. *)
Definition whole_of_big (f : float) : option Z :=
  match halve_until 1100 f 0 with
  | Some (m, e) => Some (whole_below 53 m 0 * 2 ^ e)
  | None => None
  end.

(** [b <= z]. *)
Definition le_float_Z (b : float) (z : Z) : bool :=
  if Z.abs z <=? 2 ^ 53 then PrimFloat.leb b (float_of_Z z)
  else if 0 <? z then
    if PrimFloat.leb b two53 then true
    else match whole_of_big b with
         | Some v => v <=? z
         | None => false
         end
  else
    if PrimFloat.leb (- two53)%float b then false
    else match whole_of_big (- b)%float with
         | Some v => - v <=? z
         | None => PrimFloat.eqb b b
         end.

(** [z <= b]. *)
Definition le_Z_float (z : Z) (b : float) : bool :=
  if Z.abs z <=? 2 ^ 53 then PrimFloat.leb (float_of_Z z) b
  else if 0 <? z then
    if PrimFloat.leb b two53 then false
    else match whole_of_big b with
         | Some v => z <=? v
         | None => PrimFloat.eqb b b
         end
  else
    if PrimFloat.leb (- two53)%float b then true
    else match whole_of_big (- b)%float with
         | Some v => z <=? - v
         | None => false
         end.

(** [bool(v)]. *)
Definition truthy (v : value) : bool :=
  match v with
  | VNone => false
  | VBool b => b
  | VInt z => negb (z =? 0)
  | VFloat f => negb (PrimFloat.eqb f 0%float)
  | VStr s => negb (String.eqb s "")
  | VOid _ => true
  | VList l => match l with [] => false | _ => true end
  | VDict d => match d with [] => false | _ => true end
  | VShortOid _ => true
  end.

(** Truth of an [Optional[str]] parameter: [None] and [""] are false. *)
Definition truthy_opt (o : option string) : bool :=
  match o with
  | None => false
  | Some s => truthy (VStr s)
  end.

Fixpoint lookup (d : dict) (k : string) : option value :=
  match d with
  | [] => None
  | (k', v) :: d' => if String.eqb k' k then Some v else lookup d' k
  end.

(** [d.get(k)]. *)
Definition dict_get (d : dict) (k : string) : value :=
  match lookup d k with
  | Some v => v
  | None => VNone
  end.

(** [d[k]]. *)
Definition getitem (d : dict) (k : string) : outcome value :=
  match lookup d k with
  | Some v => Ok v
  | None => Raise (KeyError k)
  end.

(** [d[k] = v]: replaces the value in place, or appends a new key. *)
Fixpoint setitem (d : dict) (k : string) (v : value) : dict :=
  match d with
  | [] => [(k, v)]
  | (k', v') :: d' =>
      if String.eqb k' k then (k', v) :: d' else (k', v') :: setitem d' k v
  end.

Definition keys (d : dict) : list string := map fst d.

(* ------------------------------------------------------------------ *)
(** ** Text matching *)

(** Text is UTF-8: a character is a byte that is not a continuation byte,
    with the continuation bytes that follow it. *)
Definition is_continuation (c : ascii) : bool :=
  let n := nat_of_ascii c in
  (Nat.leb 128 n && Nat.ltb n 192)%bool.

(** [s[:n]]: the first [n] characters. *)
Fixpoint take_chars (n : nat) (s : string) : string :=
  match s with
  | EmptyString => EmptyString
  | String c s' =>
      if is_continuation c then String c (take_chars n s')
      else
        match n with
        | O => EmptyString
        | S n' => String c (take_chars n' s')
        end
  end.


Definition lower (c : ascii) : ascii :=
  let n := nat_of_ascii c in
  if (Nat.leb 65 n && Nat.leb n 90)%bool then ascii_of_nat (n + 32) else c.

Fixpoint casefold (s : string) : string :=
  match s with
  | EmptyString => EmptyString
  | String c s' => String (lower c) (casefold s')
  end.

Fixpoint starts_with (needle hay : string) : bool :=
  match needle, hay with
  | EmptyString, _ => true
  | String _ _, EmptyString => false
  | String a needle', String b hay' => Ascii.eqb a b && starts_with needle' hay'
  end.

(** [needle in hay]. *)
Fixpoint contains (needle hay : string) : bool :=
  starts_with needle hay
  || match hay with
     | EmptyString => false
     | String _ hay' => contains needle hay'
     end.


(** The store's regular expressions, for the patterns made of literal
    characters and the wildcard [.]; every other metacharacter, and every
    character outside ASCII, puts a pattern outside this fragment. The
    subject is UTF-8 text, of which the wildcard takes one character; case
    is folded for the ASCII letters. *)
Module regex.

Inductive atom : Type :=
| Lit (c : ascii)
| AnyChar.

Definition is_meta (c : ascii) : bool :=
  existsb (Ascii.eqb c)
    (list_ascii_of_string "\^$.|?*+()[]{}").

Definition is_plain (c : ascii) : bool :=
  negb (is_meta c) && Nat.ltb (nat_of_ascii c) 128.

Fixpoint compile (pattern : string) : option (list atom) :=
  match pattern with
  | EmptyString => Some []
  | String c rest =>
      if Ascii.eqb c "." then option_map (cons AnyChar) (compile rest)
      else if is_plain c then option_map (cons (Lit c)) (compile rest)
      else None
  end.

(** [ci] is the [i] option. The wildcard takes any character but a
    newline; [c] is the first byte of the character. *)
Definition atom_matches (ci : bool) (a : atom) (c : ascii) : bool :=
  match a with
  | Lit x => if ci then Ascii.eqb (lower x) (lower c) else Ascii.eqb x c
  | AnyChar => negb (Ascii.eqb c "010")
  end.

(** The pattern matches at the start of [s]. [inside] says that the
    wildcard has just taken the first byte of a character, whose other
    bytes are still to be passed over. *)
Fixpoint match_from (ci inside : bool) (atoms : list atom) (s : string)
  : bool :=
  match s with
  | EmptyString => match atoms with [] => true | _ :: _ => false end
  | String c s' =>
      if inside && is_continuation c then match_from ci true atoms s'
      else
        match atoms with
        | [] => true
        | Lit x :: atoms' =>
            atom_matches ci (Lit x) c && match_from ci false atoms' s'
        | AnyChar :: atoms' =>
            atom_matches ci AnyChar c && negb (is_continuation c)
            && match_from ci true atoms' s'
        end
  end.

Definition match_here (ci : bool) (atoms : list atom) (s : string) : bool :=
  match_from ci false atoms s.

(** An unanchored search: the pattern matches at some position of [s]. *)
Fixpoint search (ci : bool) (atoms : list atom) (s : string) : bool :=
  match_here ci atoms s
  || match s with
     | EmptyString => false
     | String _ s' => search ci atoms s'
     end.


End regex.

(* ------------------------------------------------------------------ *)
(** ** The document store *)

(** Mongo's equality of values: numbers compare by value, documents and
    arrays field by field and in order. *)
Fixpoint value_eqb (a b : value) {struct a} : bool :=
  match a, b with
  | VNone, VNone => true
  | VBool x, VBool y => Bool.eqb x y
  | VInt x, VInt y => x =? y
  | VInt x, VFloat y => le_Z_float x y && le_float_Z y x
  | VFloat x, VInt y => le_float_Z x y && le_Z_float y x
  | VFloat x, VFloat y => PrimFloat.eqb x y
  | VStr x, VStr y => String.eqb x y
  | VOid x, VOid y => ObjectId_eqb x y
  | VShortOid x, VShortOid y =>
      if list_eq_dec Z.eq_dec x y then true else false
  | VList l, VList m =>
      (fix go (l m : list value) : bool :=
         match l, m with
         | [], [] => true
         | x :: l', y :: m' => value_eqb x y && go l' m'
         | _, _ => false
         end) l m
  | VDict d, VDict e =>
      (fix go (d e : list (string * value)) : bool :=
         match d, e with
         | [], [] => true
         | (k, x) :: d', (k', y) :: e' =>
             String.eqb k k' && value_eqb x y && go d' e'
         | _, _ => false
         end) d e
  | _, _ => false
  end.

(** What a condition on a field is tested against: the field's value and,
    when that is an array, each of its elements. *)
Definition candidates (fv : option value) : list value :=
  match fv with
  | None => []
  | Some (VList l) => VList l :: l
  | Some v => [v]
  end.

(** [{field: operand}]: an exact match (a missing field equals null). *)
Definition field_eq (operand : value) (fv : option value) : bool :=
  match fv with
  | None => value_eqb operand VNone
  | Some _ => existsb (value_eqb operand) (candidates fv)
  end.

Definition field_ge (bound : float) (fv : option value) : bool :=
  existsb (fun c => match c with
                    | VFloat x => PrimFloat.leb bound x
                    | VInt z => le_float_Z bound z
                    | _ => false
                    end) (candidates fv).

Definition field_le (bound : float) (fv : option value) : bool :=
  existsb (fun c => match c with
                    | VFloat x => PrimFloat.leb x bound
                    | VInt z => le_Z_float z bound
                    | _ => false
                    end) (candidates fv).

Definition field_in (operands : list value) (fv : option value) : bool :=
  existsb (fun x => field_eq x fv) operands.

Definition field_search (ci : bool) (atoms : list regex.atom)
  (fv : option value) : bool :=
  existsb (fun c => match c with
                    | VStr s => regex.search ci atoms s
                    | _ => false
                    end) (candidates fv).

(** Conjunction of tests, undefined as soon as one of them is. *)
Fixpoint all_of (tests : list (option bool)) : option bool :=
  match tests with
  | [] => Some true
  | t :: tests' =>
      match t, all_of tests' with
      | Some b, Some b' => Some (b && b')
      | _, _ => None
      end
  end.

Fixpoint any_of (tests : list (option bool)) : option bool :=
  match tests with
  | [] => Some false
  | t :: tests' =>
      match t, any_of tests' with
      | Some b, Some b' => Some (b || b')
      | _, _ => None
      end
  end.

Definition is_operator (k : string) : bool := starts_with "$" k.

Definition regex_flags (ops : dict) : option bool :=
  match lookup ops "$options" with
  | None => Some false
  | Some (VStr o) =>
      if String.eqb o "" then Some false
      else if String.eqb o "i" then Some true
      else None
  | Some _ => None
  end.

(** One operator of a condition document [{op: arg, ...}] on a field. The
    operators are those [main.py] emits, with the operands it gives them:
    [$gte] and [$lte] with a float, [$in], and [$regex] with its
    [$options]. *)
Definition eval_operator (ops : dict) (op : string) (arg : value)
  (fv : option value) : option bool :=
  if String.eqb op "$gte" then
    match arg with
    | VFloat b => Some (field_ge b fv)
    | _ => None
    end
  else if String.eqb op "$lte" then
    match arg with
    | VFloat b => Some (field_le b fv)
    | _ => None
    end
  else if String.eqb op "$in" then
    match arg with
    | VList operands => Some (field_in operands fv)
    | _ => None
    end
  else if String.eqb op "$regex" then
    match arg, regex_flags ops with
    | VStr pattern, Some ci =>
        option_map (fun atoms => field_search ci atoms fv)
          (regex.compile pattern)
    | _, _ => None
    end
  else if String.eqb op "$options" then
    match lookup ops "$regex" with
    | Some _ => Some true
    | None => None
    end
  else None.

(** One entry [field: condition] of a query, on the document [d]. *)
Definition eval_clause (d : dict) (clause : string * value) : option bool :=
  let (field, cond) := clause in
  if is_operator field || contains "." field then None
  else
    match cond with
    | VDict ((_ :: _) as ops) =>
        if forallb (fun e => is_operator (fst e)) ops then
          all_of (map (fun e => eval_operator ops (fst e) (snd e) (lookup d field)) ops)
        else if forallb (fun e => negb (is_operator (fst e))) ops then
          Some (field_eq cond (lookup d field))
        else None
    | _ => Some (field_eq cond (lookup d field))
    end.

Definition eval_alternative (d : dict) (alt : value) : option bool :=
  match alt with
  | VDict sub => all_of (map (eval_clause d) sub)
  | _ => None
  end.

(** Modelled from the spec: the store's evaluation of a composite query
    (section 4.2: every entry is a constraint and the entries are combined
    with logical AND; [$or] holds a disjunction of field constraints). The
    store itself is reached through [database.py], which is not part of the
    sources. *)
Definition matches (d : dict) (query : dict) : option bool :=
  all_of
    (map (fun clause =>
            if String.eqb (fst clause) "$or" then
              match snd clause with
              | VList ((_ :: _) as alts) => any_of (map (eval_alternative d) alts)
              | _ => None
              end
            else eval_clause d clause) query).

Fixpoint select (docs : list dict) (query : dict) : option (list dict) :=
  match docs with
  | [] => Some []
  | d :: docs' =>
      match matches d query, select docs' query with
      | Some b, Some rest => Some (if b then d :: rest else rest)
      | _, _ => None
      end
  end.

(** The store: named collections of documents in insertion order, and the
    number from which the next identifier is generated. *)
Record Database : Type := {
  collections : list (string * list dict);
  next_id : Z
}.

Fixpoint collection (cs : list (string * list dict)) (name : string)
  : list dict :=
  match cs with
  | [] => []
  | (n, docs) :: cs' => if String.eqb n name then docs else collection cs' name
  end.

Fixpoint store_into (cs : list (string * list dict)) (name : string)
  (doc : dict) : list (string * list dict) :=
  match cs with
  | [] => [(name, [doc])]
  | (n, docs) :: cs' =>
      if String.eqb n name then (n, docs ++ [doc]) :: cs'
      else (n, docs) :: store_into cs' name doc
  end.

(** The global [db] of the [database] module ([None] when the store is not
    configured), with a record of the insert calls made so far, oldest
    first. *)
Record World : Type := {
  db : option Database;
  inserts : list (string * dict)
}.

(** Modelled from the spec: [create_document] of [database.py], which is not
    part of the sources (section 4.1, insert: fails with StoreUnavailable if
    no store connection is configured, otherwise stores the record under a
    fresh identifier and returns that identifier). Write failures of the
    backing store are outside this model. *)
Definition create_document (collection_name : string) (data : dict)
  (w : World) : outcome value * World :=
  let attempted := inserts w ++ [(collection_name, data)] in
  match db w with
  | None =>
      (Raise (StoreError "StoreUnavailable"),
       {| db := None; inserts := attempted |})
  | Some store =>
      let _id := VOid (Oid (next_id store)) in
      (Ok _id,
       {| db := Some {| collections :=
                          store_into (collections store) collection_name
                            (setitem data "_id" _id);
                        next_id := next_id store + 1 |};
          inserts := attempted |})
  end.

(** Modelled from the spec: [get_documents] of [database.py], which is not
    part of the sources (section 4.1, find: at most [limit] records in
    store-native order; fails with StoreUnavailable when uninitialized; an
    empty sequence when nothing matches). *)
Definition get_documents (db : option Database) (collection_name : string)
  (query : dict) (limit : Z) : outcome (list dict) :=
  match db with
  | None => Raise (StoreError "StoreUnavailable")
  | Some store =>
      match select (collection (collections store) collection_name) query with
      | Some docs => Ok (firstn (Z.to_nat limit) docs)
      | None => Unmodelled
      end
  end.

(** pymongo's [Collection.find_one]: the first matching document, or
    [None]. *)
Definition find_one (docs : list dict) (query : dict) : outcome value :=
  match select docs query with
  | Some (d :: _) => Ok (VDict d)
  | Some [] => Ok VNone
  | None => Unmodelled
  end.

(* ------------------------------------------------------------------ *)
(** ** main.py *)

Definition sample_products : list dict :=
  [ [ ("title", VStr "Men's Classic Denim Jacket");
      ("description", VStr "Timeless denim with a modern fit.");
      ("price", VFloat 79.99%float);
      ("category", VStr "Men");
      ("images", VList [VStr "https://images.unsplash.com/photo-1520975916090-3105956dac38?q=80&w=1200&auto=format&fit=crop"]);
      ("sizes", VList [VStr "S"; VStr "M"; VStr "L"; VStr "XL"]);
      ("colors", VList [VStr "Blue"]);
      ("rating", VFloat 4.6%float);
      ("discount_percent", VInt 10);
      ("in_stock", VBool true);
      ("tags", VList [VStr "jacket"; VStr "denim"; VStr "men"]) ];
    [ ("title", VStr "Women's Linen Summer Dress");
      ("description", VStr "Breathable, elegant, and perfect for warm days.");
      ("price", VFloat 64.50%float);
      ("category", VStr "Women");
      ("images", VList [VStr "https://images.unsplash.com/photo-1519238263530-99bdd11df2ea?q=80&w=1200&auto=format&fit=crop"]);
      ("sizes", VList [VStr "XS"; VStr "S"; VStr "M"; VStr "L"]);
      ("colors", VList [VStr "Beige"; VStr "Olive"]);
      ("rating", VFloat 4.7%float);
      ("discount_percent", VInt 0);
      ("in_stock", VBool true);
      ("tags", VList [VStr "dress"; VStr "linen"; VStr "women"]) ];
    [ ("title", VStr "Unisex Oversized Hoodie");
      ("description", VStr "Cozy fleece-lined hoodie for everyday comfort.");
      ("price", VFloat 49.00%float);
      ("category", VStr "Accessories");
      ("images", VList [VStr "https://images.unsplash.com/photo-1516826957135-700dedea698c?q=80&w=1200&auto=format&fit=crop"]);
      ("sizes", VList [VStr "S"; VStr "M"; VStr "L"; VStr "XL"]);
      ("colors", VList [VStr "Black"; VStr "Grey"]);
      ("rating", VFloat 4.4%float);
      ("discount_percent", VInt 15);
      ("in_stock", VBool true);
      ("tags", VList [VStr "hoodie"; VStr "unisex"]) ] ].

(** The loop of [seed_products]: [inserted_ids] grows by one identifier
    per product, in the order of [products]. *)
Fixpoint seed_loop (products : list dict) (inserted_ids : list value)
  (w : World) : outcome (list value) * World :=
  match products with
  | [] => (Ok inserted_ids, w)
  | p :: products' =>
      match create_document "clothingproduct" p w with
      | (Ok _id, w') => seed_loop products' (inserted_ids ++ [_id]) w'
      | (Raise e, w') => (Raise e, w')
      | (Unmodelled, w') => (Unmodelled, w')
      end
  end.

Definition seed_products (w : World) : outcome value * World :=
  match db w with
  | None => (Raise (HTTPException 500 "Database not configured"), w)
  | Some _ =>
      match seed_loop sample_products [] w with
      | (Ok inserted_ids, w') => (Ok (VDict [("inserted", VList inserted_ids)]), w')
      | (Raise e, w') => (Raise e, w')
      | (Unmodelled, w') => (Unmodelled, w')
      end
  end.

(** The query dict of [list_products], as built between [query: dict = {}]
    and the call of [get_documents]. *)
Definition build_query (category : option string)
  (min_price max_price : option float) (size color q : option string) : dict :=
  let query : dict := [] in
  let query :=
    match category with
    | Some c => if truthy (VStr c) then setitem query "category" (VStr c) else query
    | None => query
    end in
  let query :=
    match min_price, max_price with
    | None, None => query
    | _, _ =>
        let price_filter : dict := [] in
        let price_filter :=
          match min_price with
          | Some lo => setitem price_filter "$gte" (VFloat lo)
          | None => price_filter
          end in
        let price_filter :=
          match max_price with
          | Some hi => setitem price_filter "$lte" (VFloat hi)
          | None => price_filter
          end in
        setitem query "price" (VDict price_filter)
    end in
  let query :=
    match size with
    | Some s =>
        if truthy (VStr s) then
          setitem query "sizes" (VDict [("$in", VList [VStr s])])
        else query
    | None => query
    end in
  let query :=
    match color with
    | Some c =>
        if truthy (VStr c) then
          setitem query "colors" (VDict [("$in", VList [VStr c])])
        else query
    | None => query
    end in
  match q with
  | Some text =>
      if truthy (VStr text) then
        setitem query "$or"
          (VList
             [ VDict [("title", VDict [("$regex", VStr text); ("$options", VStr "i")])];
               VDict [("description", VDict [("$regex", VStr text); ("$options", VStr "i")])];
               VDict [("tags", VDict [("$regex", VStr text); ("$options", VStr "i")])] ])
      else query
  | None => query
  end.

(** [ObjectId(oid)] for a [str]: a string of 24 characters that
    [bytes.fromhex] accepts, [InvalidId] otherwise. 24 hexadecimal digits
    give the twelve bytes of an identifier; with whitespace among the 24
    characters fewer bytes are left, and bson keeps them as they are. *)
Definition ObjectId_new (oid : string) : option value :=
  match ObjectId_parse oid with
  | Some o => Some (VOid o)
  | None =>
      if Nat.eqb (String.length oid) 24 then option_map VShortOid (fromhex oid)
      else None
  end.

Section Service.

(** Python's [str] on floats, ints, lists and dicts is not spelled out here:
    whatever string it returns is given by [str_other]. *)
Variable str_other : value -> string.

Definition py_str (v : value) : string :=
  match v with
  | VOid o => ObjectId_str o
  | VStr s => s
  | VNone => "None"
  | VBool true => "True"
  | VBool false => "False"
  | VShortOid bytes => bytes_hex bytes
  | _ => str_other v
  end.

(** The body of the loop that ends [list_products]. *)
Definition stringify_id (d : dict) : outcome dict :=
  if truthy (dict_get d "_id") then
    _id <- getitem d "_id" ;;
    Ok (setitem d "_id" (VStr (py_str _id)))
  else Ok d.

(** [limit] arrives already checked by the framework ([ge=1], [le=200]). *)
Definition list_products (db : option Database) (category : option string)
  (min_price max_price : option float) (size color q : option string)
  (limit : Z) : outcome (list dict) :=
  match db with
  | None => Ok []
  | Some _ =>
      let query := build_query category min_price max_price size color q in
      docs <- get_documents db "clothingproduct" query limit ;;
      for_each stringify_id docs
  end.

Definition get_product (db : option Database) (product_id : string)
  : outcome value :=
  match db with
  | None => Raise (HTTPException 500 "Database not configured")
  | Some store =>
      match ObjectId_new product_id with
      | None => Raise (HTTPException 400 "Invalid product id")
      | Some obj_id =>
          doc <- find_one (collection (collections store) "clothingproduct")
                   [("_id", obj_id)] ;;
          if negb (truthy doc) then
            Raise (HTTPException 404 "Product not found")
          else
            match doc with
            | VDict d =>
                _id <- getitem d "_id" ;;
                Ok (VDict (setitem d "_id" (VStr (py_str _id))))
            | _ => Raise TypeError
            end
      end
  end.

End Service.

(* ------------------------------------------------------------------ *)
(** ** The rules of the query builder, in the spec's words *)

(** Rule 1: an exact-match constraint on the category field. *)
Definition category_rule (category : option string) : dict :=
  match category with
  | Some c => if truthy (VStr c) then [("category", VStr c)] else []
  | None => []
  end.

(** Rule 2: a range on the price field with only the bounds that are
    present. *)
Definition price_bounds (min_price max_price : option float) : dict :=
  match min_price with Some lo => [("$gte", VFloat lo)] | None => [] end
  ++ match max_price with Some hi => [("$lte", VFloat hi)] | None => [] end.

Definition price_rule (min_price max_price : option float) : dict :=
  match min_price, max_price with
  | None, None => []
  | _, _ => [("price", VDict (price_bounds min_price max_price))]
  end.

(** Rules 3 and 4: membership of the value in a list-valued field. *)
Definition member_rule (field : string) (member : option string) : dict :=
  match member with
  | Some m =>
      if truthy (VStr m) then [(field, VDict [("$in", VList [VStr m])])] else []
  | None => []
  end.

(** Rule 5: the three pattern constraints of the free-text query. *)
Definition pattern_on (field text : string) : value :=
  VDict [(field, VDict [("$regex", VStr text); ("$options", VStr "i")])].

Definition text_alternatives (text : string) : list value :=
  [pattern_on "title" text; pattern_on "description" text; pattern_on "tags" text].

Definition text_rule (q : option string) : dict :=
  match q with
  | Some text =>
      if truthy (VStr text) then [("$or", VList (text_alternatives text))] else []
  | None => []
  end.

(** What each rule asks of a record [d]. *)
Definition category_holds (category : option string) (d : dict) : bool :=
  match category with
  | Some c => if truthy (VStr c) then field_eq (VStr c) (lookup d "category") else true
  | None => true
  end.

Definition price_holds (min_price max_price : option float) (d : dict) : bool :=
  match min_price with Some lo => field_ge lo (lookup d "price") | None => true end
  && match max_price with Some hi => field_le hi (lookup d "price") | None => true end.

Definition member_holds (field : string) (member : option string) (d : dict)
  : bool :=
  match member with
  | Some m => if truthy (VStr m) then field_in [VStr m] (lookup d field) else true
  | None => true
  end.

Definition pattern_holds (atoms : list regex.atom) (d : dict) : bool :=
  field_search true atoms (lookup d "title")
  || field_search true atoms (lookup d "description")
  || field_search true atoms (lookup d "tags").

Definition text_holds (q : option string) (d : dict) : option bool :=
  match q with
  | Some text =>
      if truthy (VStr text) then
        option_map (fun atoms => pattern_holds atoms d) (regex.compile text)
      else Some true
  | None => Some true
  end.


Definition both (x y : option bool) : option bool :=
  match x, y with
  | Some a, Some b => Some (a && b)
  | _, _ => None
  end.

(** A record [d] of the store as [list_products] and [get_product] hand it
    back. *)
Definition stringified (str_other : value -> string) (d : dict) : dict :=
  match lookup d "_id" with
  | Some v => if truthy v then setitem d "_id" (VStr (py_str str_other v)) else d
  | None => d
  end.

(** [r] is [d] with its ObjectId turned into a string and nothing else
    touched. *)
Definition returned_as (d r : dict) : Prop :=
  keys r = keys d
  /\ (forall k, k <> "_id" -> lookup r k = lookup d k)
  /\ (forall o, lookup d "_id" = Some (VOid o) ->
                lookup r "_id" = Some (VStr (ObjectId_str o)))
  /\ (forall o, lookup r "_id" <> Some (VOid o)).

(** Every identifier held by the collection is one the store generated. *)
Definition native_ids (docs : list dict) : Prop :=
  forall d v, In d docs -> lookup d "_id" = Some v -> exists o, v = VOid o.

Definition products (store : Database) : list dict :=
  collection (collections store) "clothingproduct".

(** The whole query is the conjunction of what its rules ask. *)
Definition query_holds (category : option string)
  (min_price max_price : option float) (size color q : option string)
  (d : dict) : option bool :=
  option_map
    (fun t => category_holds category d && price_holds min_price max_price d
              && member_holds "sizes" size d && member_holds "colors" color d
              && t)
    (text_holds q d).

(** Records and stores used as concrete instances below: the two records
    of the spec's conjunction example, and a store whose records lack most
    fields. *)
Definition R1 : dict :=
  [("_id", VOid (Oid 1)); ("category", VStr "Men"); ("price", VFloat 80%float)].

Definition R2 : dict :=
  [("_id", VOid (Oid 2)); ("category", VStr "Men"); ("price", VFloat 40%float)].

Definition men_store : Database :=
  {| collections := [("clothingproduct", [R1; R2])]; next_id := 3 |}.

Definition sparse_store : Database :=
  {| collections :=
       [("clothingproduct", [[]; [("title", VStr "Summer Dress")]; R1])];
     next_id := 2 |}.

(** A stand-in for [str_other] where an instance needs one. *)
Definition str_unused (v : value) : string := "".

(* ------------------------------------------------------------------ *)
(** ** The diagnostics endpoint *)

(** What a call on the store handle comes to: a value, or an exception of
    which [test_database] only reads [str(e)]. *)
Inductive attempt (A : Type) : Type :=
| Done (a : A)
| Failed (message : string).

Arguments Done {A} a.
Arguments Failed {A} message.

(** [test_database]. The handle is looked at through [name_attr] (the
    attribute [db.name]: [Done None] when the handle has no such attribute)
    and [list_collection_names]; [getenv] is [os.getenv]. The inner [try]
    covers the listing only, the outer one everything up to it. *)
Definition test_database (db : option Database)
  (name_attr : Database -> attempt (option value))
  (list_collection_names : Database -> attempt (list string))
  (getenv : string -> option string) : dict :=
  let response : dict :=
    [ ("backend", VStr "✅ Running");
      ("database", VStr "❌ Not Available");
      ("database_url", VNone);
      ("database_name", VNone);
      ("connection_status", VStr "Not Connected");
      ("collections", VList []) ] in
  let response :=
    match db with
    | Some handle =>
        let response := setitem response "database" (VStr "✅ Available") in
        let response := setitem response "database_url" (VStr "✅ Configured") in
        match name_attr handle with
        | Done attr =>
            let response :=
              setitem response "database_name"
                (match attr with
                 | Some name => name
                 | None => VStr "✅ Connected"
                 end) in
            let response :=
              setitem response "connection_status" (VStr "Connected") in
            match list_collection_names handle with
            | Done collections =>
                let response :=
                  setitem response "collections"
                    (VList (map VStr (firstn 10 collections))) in
                setitem response "database" (VStr "✅ Connected & Working")
            | Failed e =>
                setitem response "database"
                  (VStr ("⚠️  Connected but Error: " ++ take_chars 50 e)%string)
            end
        | Failed e =>
            setitem response "database"
              (VStr ("❌ Error: " ++ take_chars 50 e)%string)
        end
    | None =>
        setitem response "database" (VStr "⚠️  Available but not initialized")
    end in
  let response :=
    setitem response "database_url"
      (VStr (if truthy_opt (getenv "DATABASE_URL") then "✅ Set" else "❌ Not Set")) in
  setitem response "database_name"
    (VStr (if truthy_opt (getenv "DATABASE_NAME") then "✅ Set" else "❌ Not Set")).

(* ------------------------------------------------------------------ *)
(** ** Stores as seeding builds them *)

(** Every product carries an ObjectId generated before [next_id], no two
    products the same one, and identifiers fit in twelve bytes. *)
Definition well_formed (store : Database) : Prop :=
  0 <= next_id store <= 2 ^ 96
  /\ (forall d, In d (products store) ->
        exists o, lookup d "_id" = Some (VOid o)
                  /\ 0 <= binary o < next_id store)
  /\ NoDup (map (fun d => lookup d "_id") (products store)).

(** The records of a collection that a query selects, in store order. *)
Definition matching (category : option string)
  (min_price max_price : option float) (size color q : option string)
  (docs : list dict) : list dict :=
  filter (fun d =>
            match matches d
                    (build_query category min_price max_price size color q) with
            | Some b => b
            | None => false
            end) docs.

(** A filter field kept or dropped. *)
Definition weaker {A : Type} (x' x : option A) : Prop := x' = x \/ x' = None.

Definition empty_store : Database := {| collections := []; next_id := 0 |}.

(** What [ObjectId_new] builds is an ObjectId object. *)
Definition is_object_id (v : value) : Prop :=
  (exists o, v = VOid o) \/ (exists bytes, v = VShortOid bytes).

(* ------------------------------------------------------------------ *)
(** ** Dicts *)

Lemma lookup_setitem_same (d : dict) (k : string) (v : value) :
  lookup (setitem d k v) k = Some v.
Proof.
  induction d as [| [k' v'] d IH]; simpl.
  - now rewrite String.eqb_refl.
  - destruct (String.eqb k' k) eqn:E; simpl; rewrite E; auto.
Qed.

Lemma lookup_setitem_other (d : dict) (k k' : string) (v : value) :
  k' <> k -> lookup (setitem d k v) k' = lookup d k'.
Proof.
  intros Hne. induction d as [| [k0 v0] d IH]; simpl.
  - destruct (String.eqb_spec k k'); congruence.
  - destruct (String.eqb_spec k0 k) as [-> | Hk]; simpl.
    + destruct (String.eqb_spec k k'); congruence.
    + now rewrite IH.
Qed.

Lemma keys_setitem_present (d : dict) (k : string) (v : value) :
  lookup d k <> None -> keys (setitem d k v) = keys d.
Proof.
  unfold keys. induction d as [| [k0 v0] d IH]; simpl; intros H.
  - congruence.
  - destruct (String.eqb k0 k); simpl; [reflexivity | now rewrite IH].
Qed.

Lemma keys_setitem_absent (d : dict) (k : string) (v : value) :
  lookup d k = None -> keys (setitem d k v) = keys d ++ [k].
Proof.
  unfold keys. induction d as [| [k0 v0] d IH]; simpl; intros H.
  - reflexivity.
  - destruct (String.eqb k0 k); simpl; [discriminate | now rewrite IH].
Qed.

(* ------------------------------------------------------------------ *)
(** ** The query builder follows the five rules *)

Lemma build_query_rules category min_price max_price size color q :
  build_query category min_price max_price size color q
  = category_rule category ++ price_rule min_price max_price
    ++ member_rule "sizes" size ++ member_rule "colors" color ++ text_rule q.
Proof.
  destruct category as [[| ? ?] |], min_price, max_price,
    size as [[| ? ?] |], color as [[| ? ?] |], q as [[| ? ?] |];
    reflexivity.
Qed.

(* ------------------------------------------------------------------ *)
(** ** What the store makes of the query *)

Lemma all_of_app (xs ys : list (option bool)) :
  all_of (xs ++ ys) = both (all_of xs) (all_of ys).
Proof.
  induction xs as [| x xs IH]; simpl.
  - now destruct (all_of ys).
  - rewrite IH.
    destruct x, (all_of xs), (all_of ys); simpl; try reflexivity.
    now rewrite andb_assoc.
Qed.

Lemma matches_app (d : dict) (query1 query2 : dict) :
  matches d (query1 ++ query2) = both (matches d query1) (matches d query2).
Proof. unfold matches. now rewrite map_app, all_of_app. Qed.

Lemma matches_category_rule (d : dict) (category : option string) :
  matches d (category_rule category) = Some (category_holds category d).
Proof.
  destruct category as [[| a c] |]; try reflexivity.
  unfold matches, category_rule, category_holds; simpl.
  now rewrite andb_true_r.
Qed.

Lemma eval_price_clause (d : dict) (min_price max_price : option float) :
  min_price <> None \/ max_price <> None ->
  eval_clause d ("price", VDict (price_bounds min_price max_price))
  = Some (price_holds min_price max_price d).
Proof.
  intros H. unfold price_holds.
  destruct min_price as [lo |], max_price as [hi |]; simpl;
    rewrite ?andb_true_r; try reflexivity.
  destruct H; congruence.
Qed.

Lemma matches_price_rule (d : dict) (min_price max_price : option float) :
  matches d (price_rule min_price max_price)
  = Some (price_holds min_price max_price d).
Proof.
  destruct min_price as [lo |], max_price as [hi |]; try reflexivity;
    unfold matches, price_rule, price_holds; simpl;
    now rewrite ?andb_true_r.
Qed.

Lemma matches_sizes_rule (d : dict) (size : option string) :
  matches d (member_rule "sizes" size) = Some (member_holds "sizes" size d).
Proof.
  destruct size as [[| a m] |]; try reflexivity.
  unfold matches, member_rule, member_holds; simpl.
  now rewrite !andb_true_r.
Qed.

Lemma matches_colors_rule (d : dict) (color : option string) :
  matches d (member_rule "colors" color) = Some (member_holds "colors" color d).
Proof.
  destruct color as [[| a m] |]; try reflexivity.
  unfold matches, member_rule, member_holds; simpl.
  now rewrite !andb_true_r.
Qed.

Lemma eval_pattern_on (d : dict) (field text : string) :
  is_operator field || contains "." field = false ->
  eval_alternative d (pattern_on field text)
  = option_map (fun atoms => field_search true atoms (lookup d field))
      (regex.compile text).
Proof.
  intros Hfield. unfold pattern_on, eval_alternative.
  cbv [map all_of eval_clause]. rewrite Hfield.
  cbv [forallb fst snd is_operator starts_with Ascii.eqb Bool.eqb andb map all_of].
  unfold eval_operator, regex_flags; simpl.
  destruct (regex.compile text) as [atoms |]; simpl; [| reflexivity].
  now destruct (field_search true atoms (lookup d field)).
Qed.

Lemma eval_text_alternatives (d : dict) (text : string) :
  any_of (map (eval_alternative d) (text_alternatives text))
  = option_map (fun atoms => pattern_holds atoms d) (regex.compile text).
Proof.
  unfold text_alternatives. cbv [map any_of].
  rewrite !eval_pattern_on by reflexivity.
  unfold pattern_holds.
  destruct (regex.compile text); simpl; [| reflexivity].
  now rewrite orb_false_r, orb_assoc.
Qed.

Lemma matches_text_rule (d : dict) (q : option string) :
  matches d (text_rule q) = text_holds q d.
Proof.
  destruct q as [text |]; [| reflexivity].
  unfold text_rule, text_holds.
  destruct (truthy (VStr text)); [| reflexivity].
  change (matches d [("$or", VList (text_alternatives text))])
    with (all_of [any_of (map (eval_alternative d) (text_alternatives text))]).
  rewrite eval_text_alternatives.
  destruct (regex.compile text); simpl; [| reflexivity].
  now rewrite andb_true_r.
Qed.

Lemma matches_build_query d category min_price max_price size color q :
  matches d (build_query category min_price max_price size color q)
  = query_holds category min_price max_price size color q d.
Proof.
  rewrite build_query_rules, !matches_app.
  rewrite matches_category_rule, matches_price_rule, matches_sizes_rule,
    matches_colors_rule, matches_text_rule.
  unfold query_holds. destruct (text_holds q d); simpl; [| reflexivity].
  now rewrite !andb_assoc.
Qed.

(* ------------------------------------------------------------------ *)
(** ** Patterns without metacharacters are substring tests *)

Lemma starts_with_spec (needle hay : string) :
  starts_with needle hay = true
  <-> exists rest, hay = (needle ++ rest)%string.
Proof.
  revert hay. induction needle as [| a needle IH]; intros hay; simpl.
  - split; [intros _; now exists hay | reflexivity].
  - destruct hay as [| b hay]; simpl.
    + split; [discriminate | intros [rest H]; discriminate].
    + rewrite andb_true_iff, IH. split.
      * intros [Hab [rest ->]]. apply Ascii.eqb_eq in Hab as ->. now exists rest.
      * intros [rest [= -> ->]]. split; [apply Ascii.eqb_refl | now exists rest].
Qed.

Lemma contains_spec (needle hay : string) :
  contains needle hay = true
  <-> exists before rest, hay = (before ++ needle ++ rest)%string.
Proof.
  induction hay as [| b hay IH]; simpl.
  - rewrite orb_false_r, starts_with_spec. split.
    + intros [rest H]. now exists "", rest.
    + intros (before & rest & H). destruct before; [now exists rest |].
      discriminate.
  - rewrite orb_true_iff, starts_with_spec, IH. split.
    + intros [[rest H] | (before & rest & ->)].
      * now exists "", rest.
      * now exists (String b before), rest.
    + intros (before & rest & H). destruct before as [| c before].
      * left. now exists rest.
      * right. injection H as -> ->. now exists before, rest.
Qed.






(* ------------------------------------------------------------------ *)
(** ** Selection, and the loop that stringifies identifiers *)

Lemma select_sound (query : dict) (docs found : list dict) (d : dict) :
  select docs query = Some found -> In d found ->
  In d docs /\ matches d query = Some true.
Proof.
  revert found. induction docs as [| x docs IH]; simpl; intros found Hsel Hin.
  - injection Hsel as <-. destruct Hin.
  - destruct (matches x query) as [b |] eqn:Hx; [| discriminate].
    destruct (select docs query) as [rest |]; [| discriminate].
    injection Hsel as <-. destruct b.
    + destruct Hin as [<- | Hin]; [auto |].
      destruct (IH rest eq_refl Hin); auto.
    + destruct (IH rest eq_refl Hin); auto.
Qed.

Lemma select_everything (query : dict) (docs : list dict) :
  (forall d, matches d query = Some true) -> select docs query = Some docs.
Proof.
  intros Hall. induction docs as [| x docs IH]; simpl; [reflexivity |].
  now rewrite Hall, IH.
Qed.

Lemma select_defined (query : dict) (docs : list dict) :
  (forall d, matches d query <> None) -> select docs query <> None.
Proof.
  intros Hall. induction docs as [| x docs IH]; simpl; [discriminate |].
  specialize (Hall x). destruct (matches x query); [| congruence].
  destruct (select docs query); [discriminate | congruence].
Qed.

Lemma stringify_id_total (str_other : value -> string) (d : dict) :
  stringify_id str_other d = Ok (stringified str_other d).
Proof.
  unfold stringify_id, stringified, dict_get, getitem.
  destruct (lookup d "_id") as [v |]; simpl; [| reflexivity].
  now destruct (truthy v).
Qed.

Lemma for_each_stringify (str_other : value -> string) (docs : list dict) :
  for_each (stringify_id str_other) docs = Ok (map (stringified str_other) docs).
Proof.
  induction docs as [| d docs IH]; simpl; [reflexivity |].
  now rewrite stringify_id_total, IH.
Qed.

Lemma stringified_returned_as (str_other : value -> string) (d : dict) :
  returned_as d (stringified str_other d).
Proof.
  unfold returned_as, stringified.
  destruct (lookup d "_id") as [v |] eqn:Hid.
  - destruct (truthy v) eqn:Htruthy.
    + repeat split.
      * apply keys_setitem_present. congruence.
      * intros k Hk. now apply lookup_setitem_other.
      * intros o [= ->]. now rewrite lookup_setitem_same.
      * intros o. rewrite lookup_setitem_same. discriminate.
    + repeat split; intros o; rewrite Hid; intros [= ->]; discriminate.
  - repeat split; intros o; rewrite Hid; discriminate.
Qed.

Lemma stringified_without_id (str_other : value -> string) (d : dict) :
  lookup d "_id" = None -> stringified str_other d = d.
Proof. unfold stringified. now intros ->. Qed.

Lemma collection_store_into (cs : list (string * list dict)) (name : string)
  (doc : dict) :
  collection (store_into cs name doc) name = collection cs name ++ [doc].
Proof.
  induction cs as [| [n docs] cs IH]; simpl.
  - now rewrite String.eqb_refl.
  - destruct (String.eqb n name) eqn:E; simpl; rewrite E; auto.
Qed.

(* ------------------------------------------------------------------ *)
(** ** The price range (rule 2) *)

Lemma lookup_price category min_price max_price size color q :
  lookup (build_query category min_price max_price size color q) "price"
  = match min_price, max_price with
    | None, None => None
    | _, _ => Some (VDict (price_bounds min_price max_price))
    end.
Proof.
  destruct category as [[| ? ?] |], min_price, max_price,
    size as [[| ? ?] |], color as [[| ? ?] |], q as [[| ? ?] |];
    reflexivity.
Qed.

Lemma field_ge_float (bound p : float) :
  field_ge bound (Some (VFloat p)) = PrimFloat.leb bound p.
Proof. unfold field_ge; simpl. apply orb_false_r. Qed.

Lemma field_le_float (bound p : float) :
  field_le bound (Some (VFloat p)) = PrimFloat.leb p bound.
Proof. unfold field_le; simpl. apply orb_false_r. Qed.

(** C2: the query has a price constraint exactly when one of [min_price],
    [max_price] is given ([is not None]); the constraint then holds [$gte]
    with the given minimum exactly when [min_price] is given and [$lte] with
    the given maximum exactly when [max_price] is given, and nothing else, so
    an absent bound is not filled in; both bounds are inclusive. *)
Theorem price_constraint_uses_given_bounds
  (category : option string) (min_price max_price : option float)
  (size color q : option string) :
  let query := build_query category min_price max_price size color q in
  (lookup query "price" <> None <-> (min_price <> None \/ max_price <> None))
  /\ lookup query "price"
     = match min_price, max_price with
       | None, None => None
       | _, _ =>
           Some (VDict
                   (match min_price with
                    | Some lo => [("$gte", VFloat lo)]
                    | None => []
                    end
                    ++ match max_price with
                       | Some hi => [("$lte", VFloat hi)]
                       | None => []
                       end))
       end
  /\ (forall cond d p,
        lookup query "price" = Some cond ->
        lookup d "price" = Some (VFloat p) ->
        eval_clause d ("price", cond)
        = Some (match min_price with
                | Some lo => PrimFloat.leb lo p
                | None => true
                end
                && match max_price with
                   | Some hi => PrimFloat.leb p hi
                   | None => true
                   end)).
Proof.
  cbv zeta. rewrite lookup_price. split; [| split].
  - destruct min_price, max_price; split; intros H;
      try discriminate; try (now left); try (now right);
      try congruence; destruct H; congruence.
  - reflexivity.
  - intros cond d p Hcond Hprice.
    assert (Hsome : min_price <> None \/ max_price <> None)
      by (destruct min_price, max_price;
          try discriminate; (now left) || (now right)).
    assert (cond = VDict (price_bounds min_price max_price)) as ->
      by (destruct min_price, max_price; congruence).
    rewrite (eval_price_clause d _ _ Hsome). unfold price_holds.
    rewrite Hprice.
    destruct min_price, max_price;
      now rewrite ?field_ge_float, ?field_le_float.
Qed.

(* ------------------------------------------------------------------ *)
(** ** The empty filter *)

Lemma list_products_configured (str_other : value -> string)
  (store : Database) category min_price max_price size color q limit docs :
  get_documents (Some store) "clothingproduct"
    (build_query category min_price max_price size color q) limit = Ok docs ->
  list_products str_other (Some store) category min_price max_price size
    color q limit = Ok (map (stringified str_other) docs).
Proof.
  intros Hdocs. unfold list_products. rewrite Hdocs. simpl.
  apply for_each_stringify.
Qed.

(** C3: with every filter field absent the query is the empty dict, which
    every record matches, and [list_products] hands back the first [limit]
    records of the collection, each with its identifier stringified. *)
Theorem empty_filter_lists_everything (str_other : value -> string)
  (store : Database) (limit : Z) :
  build_query None None None None None None = []
  /\ (forall d, matches d [] = Some true)
  /\ list_products str_other (Some store) None None None None None None limit
     = Ok (map (stringified str_other)
             (firstn (Z.to_nat limit) (products store)))
  /\ List.length (map (stringified str_other)
               (firstn (Z.to_nat limit) (products store)))
     = Nat.min (Z.to_nat limit) (List.length (products store)).
Proof.
  repeat split.
  - apply list_products_configured. unfold get_documents.
    change (build_query None None None None None None) with (@nil (string * value)).
    now rewrite select_everything.
  - now rewrite length_map, length_firstn.
Qed.

(* ------------------------------------------------------------------ *)
(** ** No store configured *)

(** C6: without a store, [list_products] returns the empty list, and
    [seed_products] and [get_product] raise the 500 "Database not
    configured"; [seed_products] leaves the record of insert calls as it
    was. *)
Theorem unconfigured_store (str_other : value -> string)
  (category : option string) (min_price max_price : option float)
  (size color q : option string) (limit : Z) (product_id : string)
  (log : list (string * dict)) :
  list_products str_other None category min_price max_price size color q limit
  = Ok []
  /\ seed_products {| db := None; inserts := log |}
     = (Raise StoreUnavailable, {| db := None; inserts := log |})
  /\ get_product str_other None product_id = Raise StoreUnavailable.
Proof. repeat split. Qed.

(* ------------------------------------------------------------------ *)
(** ** Seeding *)

Lemma seed_products_run (store : Database) (log : list (string * dict)) :
  let n := next_id store in
  let ids := [VOid (Oid n); VOid (Oid (n + 1)); VOid (Oid (n + 2))] in
  exists store',
    seed_products {| db := Some store; inserts := log |}
    = (Ok (VDict [("inserted", VList ids)]),
       {| db := Some store';
          inserts := log ++ map (pair "clothingproduct") sample_products |})
    /\ products store'
       = products store
         ++ map (fun p_id => setitem (fst p_id) "_id" (snd p_id))
              (combine sample_products ids).
Proof.
  cbv zeta. eexists. split.
  - unfold seed_products, sample_products, seed_loop, create_document.
    cbn [db inserts next_id collections app].
    rewrite <- !app_assoc. cbn [app map].
    replace (next_id store + 1 + 1) with (next_id store + 2) by lia.
    reflexivity.
  - unfold products. cbn [collections].
    rewrite !collection_store_into, <- !app_assoc. reflexivity.
Qed.

(** Seeding keeps the collection's identifiers ObjectIds. *)
Lemma seed_products_native_ids (store store' : Database)
  (log log' : list (string * dict)) (result : outcome value) :
  native_ids (products store) ->
  seed_products {| db := Some store; inserts := log |}
  = (result, {| db := Some store'; inserts := log' |}) ->
  native_ids (products store').
Proof.
  intros Hnative Hrun.
  destruct (seed_products_run store log) as (seeded & Heq & Hproducts).
  rewrite Heq in Hrun. injection Hrun as _ <- _.
  rewrite Hproducts. intros d v Hd Hid.
  apply in_app_or in Hd as [Hd | Hd]; [now apply (Hnative d v) |].
  cbn in Hd.
  destruct Hd as [<- | [<- | [<- | []]]];
    cbn in Hid; injection Hid as <-; eauto.
Qed.

(** C8: on a configured store [seed_products] calls [create_document] once
    per sample product, in order, each on the collection "clothingproduct";
    the three records are appended to that collection in the same order, and
    three distinct identifiers come back, in the order of the products they
    were given to. *)
Theorem seed_products_inserts_in_order (store : Database)
  (log : list (string * dict)) :
  let n := next_id store in
  let ids := [VOid (Oid n); VOid (Oid (n + 1)); VOid (Oid (n + 2))] in
  exists store',
    seed_products {| db := Some store; inserts := log |}
    = (Ok (VDict [("inserted", VList ids)]),
       {| db := Some store';
          inserts := log ++ map (pair "clothingproduct") sample_products |})
    /\ products store'
       = products store
         ++ map (fun p_id => setitem (fst p_id) "_id" (snd p_id))
              (combine sample_products ids)
    /\ List.length ids = List.length sample_products
    /\ List.length ids = 3%nat
    /\ NoDup ids.
Proof.
  cbv zeta.
  destruct (seed_products_run store log) as (store' & Hrun & Hproducts).
  exists store'. repeat split; try assumption.
  repeat constructor; cbn [In];
    intros H; repeat (destruct H as [[= H] | H]; [lia |]); exact H.
Qed.

(* ------------------------------------------------------------------ *)
(** ** Which parameters count as given *)

(** C10: an empty string for [category], [size], [color] or [q] leaves the
    query as if the parameter were absent, while a [min_price] or
    [max_price] of zero puts its bound in the price constraint. *)
Theorem presence_is_asymmetric
  (category : option string) (min_price max_price : option float)
  (size color q : option string) :
  build_query (Some "") min_price max_price size color q
  = build_query None min_price max_price size color q
  /\ build_query category min_price max_price (Some "") color q
     = build_query category min_price max_price None color q
  /\ build_query category min_price max_price size (Some "") q
     = build_query category min_price max_price size None q
  /\ build_query category min_price max_price size color (Some "")
     = build_query category min_price max_price size color None
  /\ (exists bounds,
        lookup (build_query category (Some 0%float) max_price size color q)
          "price" = Some (VDict bounds)
        /\ lookup bounds "$gte" = Some (VFloat 0%float))
  /\ (exists bounds,
        lookup (build_query category min_price (Some 0%float) size color q)
          "price" = Some (VDict bounds)
        /\ lookup bounds "$lte" = Some (VFloat 0%float)).
Proof.
  repeat split.
  - eexists. rewrite lookup_price. split; [reflexivity |].
    now destruct max_price.
  - eexists. rewrite lookup_price. split.
    + destruct min_price; reflexivity.
    + now destruct min_price.
Qed.

(* ------------------------------------------------------------------ *)
(** ** The constraints are combined conjunctively *)

Lemma In_firstn {A : Type} (n : nat) (xs : list A) (x : A) :
  In x (firstn n xs) -> In x xs.
Proof.
  revert xs. induction n as [| n IH]; intros [| y xs]; simpl; try tauto.
  intros [-> | H]; auto.
Qed.

Lemma lookup_stringified_other (str_other : value -> string) (d : dict)
  (k : string) :
  k <> "_id" -> lookup (stringified str_other d) k = lookup d k.
Proof. intros Hk. now apply (stringified_returned_as str_other d). Qed.

Lemma list_products_sound (str_other : value -> string) (store : Database)
  category min_price max_price size color q limit rs r :
  list_products str_other (Some store) category min_price max_price size
    color q limit = Ok rs ->
  In r rs ->
  exists d, In d (products store) /\ r = stringified str_other d
            /\ matches d (build_query category min_price max_price size color q)
               = Some true.
Proof.
  unfold list_products, get_documents. fold (products store).
  destruct (select (products store) _) as [found |] eqn:Hsel;
    simpl; [| discriminate].
  rewrite for_each_stringify. intros [= <-] Hin.
  apply in_map_iff in Hin as (d & <- & Hd).
  apply In_firstn in Hd.
  destruct (select_sound _ _ _ _ Hsel Hd) as [Hstored Hmatch].
  now exists d.
Qed.

Lemma query_holds_stringified (str_other : value -> string) (d : dict)
  category min_price max_price size color q :
  query_holds category min_price max_price size color q
    (stringified str_other d)
  = query_holds category min_price max_price size color q d.
Proof.
  unfold query_holds, text_holds, pattern_holds, category_holds, price_holds,
    member_holds.
  now rewrite !lookup_stringified_other by discriminate.
Qed.

Lemma query_holds_true category min_price max_price size color q d :
  query_holds category min_price max_price size color q d = Some true ->
  category_holds category d = true
  /\ price_holds min_price max_price d = true
  /\ member_holds "sizes" size d = true
  /\ member_holds "colors" color d = true
  /\ text_holds q d = Some true.
Proof.
  unfold query_holds. destruct (text_holds q d) as [t |]; simpl; [| discriminate].
  intros [= H]. repeat (apply andb_true_iff in H as [H ?]). subst.
  repeat split; assumption.
Qed.

(** C4: a record that [list_products] returns satisfies the category, price,
    size, color and free-text constraints that are active, all at once, and
    it still matches the query built from the same filter without the
    free-text part; with R1 (category "Men", price 80) and R2 (category
    "Men", price 40) stored, the filter category "Men", min_price 50 returns
    R1 alone. *)
Theorem list_products_conjunctive (str_other : value -> string) :
  (forall store category min_price max_price size color q limit rs r,
     list_products str_other (Some store) category min_price max_price size
       color q limit = Ok rs ->
     In r rs ->
     category_holds category r = true
     /\ price_holds min_price max_price r = true
     /\ member_holds "sizes" size r = true
     /\ member_holds "colors" color r = true
     /\ text_holds q r = Some true
     /\ matches r (build_query category min_price max_price size color None)
        = Some true)
  /\ (forall limit, 1 <= limit ->
        list_products str_other (Some men_store) (Some "Men")
          (Some 50%float) None None None None limit
        = Ok [ [("_id", VStr "000000000000000000000001");
                ("category", VStr "Men"); ("price", VFloat 80%float)] ]).
Proof.
  split.
  - intros store category min_price max_price size color q limit rs r Hrs Hr.
    destruct (list_products_sound _ _ _ _ _ _ _ _ _ _ _ Hrs Hr)
      as (d & Hd & -> & Hmatch).
    rewrite matches_build_query in Hmatch.
    rewrite <- (query_holds_stringified str_other) in Hmatch.
    destruct (query_holds_true _ _ _ _ _ _ _ Hmatch) as (Hc & Hp & Hs & Hk & Ht).
    repeat split; try assumption.
    rewrite matches_build_query. unfold query_holds; simpl.
    now rewrite Hc, Hp, Hs, Hk.
  - intros limit Hlimit.
    destruct (Z.to_nat limit) as [| n] eqn:Hn; [lia |].
    unfold list_products, get_documents. cbn. rewrite Hn.
    cbn [firstn]. rewrite firstn_nil. reflexivity.
Qed.

Lemma list_products_conjunctive_witness :
  list_products str_unused (Some men_store) (Some "Men") (Some 50%float)
    None None None None 50
  = Ok [ [("_id", VStr "000000000000000000000001");
          ("category", VStr "Men"); ("price", VFloat 80%float)] ]
  /\ price_holds (Some 50%float) None
       [("_id", VStr "000000000000000000000001");
        ("category", VStr "Men"); ("price", VFloat 80%float)] = true.
Proof.
  pose proof (list_products_conjunctive str_unused) as [Hall Hmen].
  assert (Hrun := Hmen 50 ltac:(lia)).
  split; [exact Hrun |].
  exact (proj1 (proj2 (Hall _ _ _ _ _ _ _ _ _ _ Hrun (or_introl eq_refl)))).
Defined.

(* ------------------------------------------------------------------ *)
(** ** The free-text query (rule 5) *)






(* ------------------------------------------------------------------ *)
(** ** Looking a product up by its identifier *)

Lemma ObjectId_eqb_eq (a b : ObjectId) : ObjectId_eqb a b = true <-> a = b.
Proof.
  destruct a as [x], b as [y]. unfold ObjectId_eqb; simpl.
  rewrite Z.eqb_eq. split; congruence.
Qed.

Lemma field_eq_oid (oid : ObjectId) (fv : option value) :
  (forall v, fv = Some v -> exists o, v = VOid o) ->
  field_eq (VOid oid) fv = true <-> fv = Some (VOid oid).
Proof.
  intros Hnative. destruct fv as [v |]; simpl.
  - destruct (Hnative v eq_refl) as [o ->]. simpl.
    rewrite orb_false_r, ObjectId_eqb_eq. split; congruence.
  - split; discriminate.
Qed.

Lemma matches_id (oid : ObjectId) (d : dict) :
  matches d [("_id", VOid oid)] = Some (field_eq (VOid oid) (lookup d "_id")).
Proof.
  unfold matches; simpl. now rewrite andb_true_r.
Qed.

Lemma select_id (oid : ObjectId) (docs : list dict) :
  select docs [("_id", VOid oid)]
  = Some (filter (fun d => field_eq (VOid oid) (lookup d "_id")) docs).
Proof.
  induction docs as [| d docs IH]; [reflexivity |].
  cbn [select filter]. now rewrite matches_id, IH.
Qed.

Lemma getitem_found (d : dict) (k : string) (v : value) :
  lookup d k = Some v -> getitem d k = Ok v.
Proof. unfold getitem. now intros ->. Qed.

Lemma lookup_nonempty (d : dict) (k : string) (v : value) :
  lookup d k = Some v -> truthy (VDict d) = true.
Proof. now destruct d. Qed.

Lemma find_filter {A : Type} (f : A -> bool) (xs : list A) :
  match filter f xs with
  | [] => None
  | x :: _ => Some x
  end = find f xs.
Proof.
  induction xs as [| x xs IH]; simpl; [reflexivity |].
  now destruct (f x).
Qed.

Lemma ObjectId_new_cases (s : string) (v : value) :
  ObjectId_new s = Some v ->
  (exists o, v = VOid o /\ ObjectId_parse s = Some o)
  \/ (exists bytes, v = VShortOid bytes /\ ObjectId_parse s = None).
Proof.
  unfold ObjectId_new. destruct (ObjectId_parse s) as [o |].
  - intros [= <-]. left. now exists o.
  - destruct (Nat.eqb (String.length s) 24); [| discriminate].
    destruct (fromhex s) as [bytes |]; [| discriminate].
    intros [= <-]. right. now exists bytes.
Qed.

Lemma ObjectId_new_object (s : string) (v : value) :
  ObjectId_new s = Some v -> is_object_id v.
Proof.
  intros H. destruct (ObjectId_new_cases s v H) as [(o & -> & _) | (b & -> & _)];
    [left | right]; eauto.
Qed.

Lemma field_eq_object_id (v : value) (fv : option value) :
  is_object_id v ->
  (forall x, fv = Some x -> exists o, x = VOid o) ->
  field_eq v fv = true <-> fv = Some v.
Proof.
  intros [[o ->] | [bytes ->]] Hnative; [now apply field_eq_oid |].
  destruct fv as [x |]; simpl.
  - destruct (Hnative x eq_refl) as [o ->]. simpl. split; discriminate.
  - split; discriminate.
Qed.

Lemma field_eq_object_truthy (v : value) (fv : option value) :
  is_object_id v -> field_eq v fv = true ->
  exists x, fv = Some x /\ truthy x = true.
Proof.
  intros Hv. destruct fv as [x |];
    [| destruct Hv as [[o ->] | [b ->]]; discriminate].
  intros H. exists x. split; [reflexivity |].
  destruct Hv as [[o ->] | [b ->]];
    (destruct x; try discriminate; try reflexivity;
     destruct l; [discriminate | reflexivity]).
Qed.

Lemma select_object_id (v : value) (docs : list dict) :
  is_object_id v ->
  select docs [("_id", v)]
  = Some (filter (fun d => field_eq v (lookup d "_id")) docs).
Proof.
  intros Hv. induction docs as [| d docs IH]; [reflexivity |].
  cbn [select filter]. rewrite IH.
  assert (matches d [("_id", v)] = Some (field_eq v (lookup d "_id"))) as ->.
  { destruct Hv as [[o ->] | [b ->]]; unfold matches; simpl;
      now rewrite andb_true_r. }
  reflexivity.
Qed.

Lemma get_product_spec (str_other : value -> string) (store : Database)
  (product_id : string) :
  get_product str_other (Some store) product_id
  = match ObjectId_new product_id with
    | None => Raise InvalidIdentifier
    | Some obj_id =>
        match find (fun d => field_eq obj_id (lookup d "_id"))
                (products store) with
        | None => Raise NotFound
        | Some d => Ok (VDict (stringified str_other d))
        end
    end.
Proof.
  unfold get_product, find_one. fold (products store).
  destruct (ObjectId_new product_id) as [obj_id |] eqn:Hnew; [| reflexivity].
  pose proof (ObjectId_new_object _ _ Hnew) as Hobj.
  rewrite (select_object_id _ _ Hobj), <- find_filter.
  destruct (filter _ (products store)) as [| d found] eqn:Hfound;
    [reflexivity |].
  assert (Hd : In d (filter (fun d => field_eq obj_id (lookup d "_id"))
                       (products store)))
    by (rewrite Hfound; now left).
  apply filter_In in Hd as [_ Hid].
  destruct (field_eq_object_truthy _ _ Hobj Hid) as (x & Hx & Htruthy).
  cbn [bind]. rewrite (lookup_nonempty _ _ _ Hx). cbn [negb].
  rewrite (getitem_found _ _ _ Hx). cbn [bind].
  unfold stringified. now rewrite Hx, Htruthy.
Qed.




(* ------------------------------------------------------------------ *)
(** ** Identifiers leave as strings *)

Lemma returned_as_setitem (str_other : value -> string) (d : dict) (v : value) :
  lookup d "_id" = Some v ->
  returned_as d (setitem d "_id" (VStr (py_str str_other v))).
Proof.
  intros Hid. repeat split.
  - apply keys_setitem_present. congruence.
  - intros k Hk. now apply lookup_setitem_other.
  - intros o Ho. rewrite lookup_setitem_same.
    rewrite Hid in Ho. now injection Ho as ->.
  - intros o. rewrite lookup_setitem_same. discriminate.
Qed.

(** C7: a record returned by [list_products] or [get_product] is a stored
    record with the same keys in the same order and the same value under
    every key but "_id"; an ObjectId under "_id" has become its string, and
    no returned record holds an ObjectId there. *)
Theorem returned_records_carry_string_ids (str_other : value -> string)
  (store : Database) :
  (forall category min_price max_price size color q limit rs r,
     list_products str_other (Some store) category min_price max_price size
       color q limit = Ok rs ->
     In r rs ->
     exists d, In d (products store) /\ returned_as d r)
  /\ (forall product_id r,
        get_product str_other (Some store) product_id = Ok r ->
        exists d r', In d (products store)
                     /\ r = VDict r'
                     /\ returned_as d r'
                     /\ exists s, lookup r' "_id" = Some (VStr s)).
Proof.
  split.
  - intros category min_price max_price size color q limit rs r Hrs Hr.
    destruct (list_products_sound _ _ _ _ _ _ _ _ _ _ _ Hrs Hr)
      as (d & Hd & -> & _).
    exists d. split; [assumption | apply stringified_returned_as].
  - intros product_id r. unfold get_product, find_one. fold (products store).
    destruct (ObjectId_new product_id) as [obj_id |]; [| discriminate].
    destruct (select (products store) _) as [[| d found] |] eqn:Hsel;
      cbn [bind]; try discriminate.
    pose proof (proj1 (select_sound _ _ _ d Hsel (or_introl eq_refl))) as Hd.
    destruct (truthy (VDict d)); cbn [negb]; [| discriminate].
    unfold getitem.
    destruct (lookup d "_id") as [v |] eqn:Hid; cbn [bind]; [| discriminate].
    intros [= <-].
    exists d, (setitem d "_id" (VStr (py_str str_other v))).
    split; [exact Hd |]. split; [reflexivity |].
    split; [now apply returned_as_setitem |].
    eexists. apply lookup_setitem_same.
Qed.

Lemma returned_records_carry_string_ids_witness :
  exists d, In d (products men_store)
            /\ returned_as d [("_id", VStr "000000000000000000000001");
                              ("category", VStr "Men");
                              ("price", VFloat 80%float)].
Proof.
  apply (proj1 (returned_records_carry_string_ids str_unused men_store)
           (Some "Men") (Some 50%float) None None None None 50
           [ [("_id", VStr "000000000000000000000001");
              ("category", VStr "Men"); ("price", VFloat 80%float)] ]).
  - reflexivity.
  - now left.
Defined.

(* ------------------------------------------------------------------ *)
(** ** Records that lack fields *)

Lemma text_holds_defined (q : option string) (d : dict) :
  (forall text, q = Some text -> regex.compile text <> None) ->
  text_holds q d <> None.
Proof.
  intros Hq. destruct q as [text |]; simpl; [| discriminate].
  destruct (negb (String.eqb text "")); [| discriminate].
  specialize (Hq text eq_refl).
  destruct (regex.compile text); [discriminate | congruence].
Qed.

(** C9: the loop that ends [list_products] goes through whatever records
    the store hands over without raising, and a record without "_id" comes
    back as it is, still without it; and whichever fields the stored
    records have or lack (two of [sparse_store] have no identifier, one has
    no field at all), the store call and so [list_products] return, for
    every filter whose free-text query is within the patterns modelled. *)
Theorem retrieval_tolerates_missing_fields (str_other : value -> string) :
  (forall docs,
     for_each (stringify_id str_other) docs
     = Ok (map (stringified str_other) docs)
     /\ forall d, In d docs ->
          returned_as d (stringified str_other d)
          /\ (lookup d "_id" = None ->
              stringify_id str_other d = Ok d /\ stringified str_other d = d))
  /\ (forall store category min_price max_price size color q limit,
        (forall text, q = Some text -> regex.compile text <> None) ->
        exists docs,
          get_documents (Some store) "clothingproduct"
            (build_query category min_price max_price size color q) limit
          = Ok docs
          /\ list_products str_other (Some store) category min_price max_price
               size color q limit
             = Ok (map (stringified str_other) docs))
  /\ list_products str_other (Some sparse_store) None None None None None
       None 50
     = Ok [ []; [("title", VStr "Summer Dress")];
            [("_id", VStr "000000000000000000000001");
             ("category", VStr "Men"); ("price", VFloat 80%float)] ]
  /\ list_products str_other (Some sparse_store) (Some "Men") (Some 50%float)
       None (Some "M") None (Some "dress") 50
     = Ok [].
Proof.
  split; [| split; [| split; reflexivity]].
  - intros docs. split; [apply for_each_stringify |].
    intros d _. split; [apply stringified_returned_as |].
    intros Hid. rewrite stringify_id_total.
    now rewrite (stringified_without_id _ _ Hid).
  - intros store category min_price max_price size color q limit Hq.
    assert (Hsel : select (products store)
                     (build_query category min_price max_price size color q)
                   <> None).
    { apply select_defined. intros d. rewrite matches_build_query.
      unfold query_holds. pose proof (text_holds_defined q d Hq).
      destruct (text_holds q d); [discriminate | congruence]. }
    destruct (select (products store) _) as [found |] eqn:Hfound;
      [| congruence].
    exists (firstn (Z.to_nat limit) found).
    assert (Hdocs : get_documents (Some store) "clothingproduct"
                      (build_query category min_price max_price size color q)
                      limit
                    = Ok (firstn (Z.to_nat limit) found)).
    { unfold get_documents. fold (products store). now rewrite Hfound. }
    split; [exact Hdocs | now apply list_products_configured].
Qed.

Lemma retrieval_tolerates_missing_fields_witness :
  exists docs,
    get_documents (Some sparse_store) "clothingproduct"
      (build_query None None None None None (Some "summer")) 50 = Ok docs
    /\ list_products str_unused (Some sparse_store) None None None None None
         (Some "summer") 50
       = Ok (map (stringified str_unused) docs).
Proof.
  apply (proj1 (proj2 (retrieval_tolerates_missing_fields str_unused))
           sparse_store None None None None None (Some "summer") 50).
  intros text [= <-]. discriminate.
Defined.

Lemma price_constraint_uses_given_bounds_witness :
  eval_clause [("price", VFloat 50%float)]
    ("price", VDict [("$gte", VFloat 50%float)]) = Some true
  /\ eval_clause [("price", VFloat 40%float)]
       ("price", VDict [("$gte", VFloat 50%float)]) = Some false.
Proof.
  split.
  - exact (proj2 (proj2 (price_constraint_uses_given_bounds
                           (Some "Men") (Some 50%float) None None None None))
             _ [("price", VFloat 50%float)] 50%float eq_refl eq_refl).
  - exact (proj2 (proj2 (price_constraint_uses_given_bounds
                           (Some "Men") (Some 50%float) None None None None))
             _ [("price", VFloat 40%float)] 40%float eq_refl eq_refl).
Defined.

(* ------------------------------------------------------------------ *)
(** ** ObjectIds and their strings *)

Lemma hex_value_hex_char (d : Z) :
  0 <= d < 16 -> hex_value (hex_char d) = Some d.
Proof.
  intros Hd.
  assert (H : d = 0 \/ d = 1 \/ d = 2 \/ d = 3 \/ d = 4 \/ d = 5 \/ d = 6
              \/ d = 7 \/ d = 8 \/ d = 9 \/ d = 10 \/ d = 11 \/ d = 12
              \/ d = 13 \/ d = 14 \/ d = 15) by lia.
  repeat (destruct H as [-> | H]; [reflexivity |]). now subst.
Qed.

Lemma hex_digit_checked (c : ascii) :
  match hex_value c with
  | Some d => Ascii.eqb (hex_char d) (lower c) && (0 <=? d) && (d <? 16)
  | None => true
  end = true.
Proof. destruct c as [[] [] [] [] [] [] [] []]; reflexivity. Qed.

Lemma hex_char_hex_value (c : ascii) (d : Z) :
  hex_value c = Some d -> hex_char d = lower c /\ 0 <= d < 16.
Proof.
  intros Hc. pose proof (hex_digit_checked c) as H. rewrite Hc in H.
  apply andb_true_iff in H as [H Hlt]. apply andb_true_iff in H as [Heq Hle].
  apply Ascii.eqb_eq in Heq. split; [exact Heq | lia].
Qed.

Lemma hex_value_lower (c : ascii) : hex_value (lower c) = hex_value c.
Proof. destruct c as [[] [] [] [] [] [] [] []]; reflexivity. Qed.

Lemma length_hexlify (n : nat) (z : Z) (acc : string) :
  String.length (hexlify n z acc) = (n + String.length acc)%nat.
Proof.
  revert z acc. induction n as [| n IH]; intros z acc; simpl; [reflexivity |].
  rewrite IH. simpl. lia.
Qed.

Lemma unhexlify_hexlify (n : nat) (z a : Z) (acc : string) :
  unhexlify (hexlify n z acc) a
  = unhexlify acc (16 ^ Z.of_nat n * a + z mod 16 ^ Z.of_nat n).
Proof.
  revert z a acc. induction n as [| n IH]; intros z a acc.
  - cbn [hexlify]. change (Z.of_nat 0) with 0.
    rewrite Z.pow_0_r, Z.mod_1_r. f_equal. lia.
  - cbn [hexlify]. rewrite IH. cbn [unhexlify].
    rewrite hex_value_hex_char by (apply Z.mod_pos_bound; lia).
    f_equal. rewrite Nat2Z.inj_succ, Z.pow_succ_r by lia.
    rewrite (Z.rem_mul_r z 16 (16 ^ Z.of_nat n)) by lia. ring.
Qed.

Lemma length_casefold (s : string) :
  String.length (casefold s) = String.length s.
Proof. induction s as [| c s IH]; simpl; congruence. Qed.

Lemma unhexlify_casefold (s : string) (a : Z) :
  unhexlify (casefold s) a = unhexlify s a.
Proof.
  revert a. induction s as [| c s IH]; intros a; simpl; [reflexivity |].
  rewrite hex_value_lower. destruct (hex_value c); [apply IH | reflexivity].
Qed.

Lemma ObjectId_parse_casefold (s : string) :
  ObjectId_parse (casefold s) = ObjectId_parse s.
Proof.
  unfold ObjectId_parse. now rewrite length_casefold, unhexlify_casefold.
Qed.

Lemma string_last (s : string) :
  s <> "" -> exists s' c, s = (s' ++ String c "")%string.
Proof.
  induction s as [| a s IH]; intros Hs; [congruence |].
  destruct s as [| b s].
  - now exists "", a.
  - destruct IH as (s' & c & ->); [discriminate |].
    now exists (String a s'), c.
Qed.

Lemma length_snoc (s : string) (c : ascii) :
  String.length (s ++ String c "") = S (String.length s).
Proof. induction s as [| a s IH]; simpl; congruence. Qed.

Lemma string_snoc_ind (P : string -> Prop) :
  P "" -> (forall s c, P s -> P (s ++ String c "")%string) -> forall s, P s.
Proof.
  intros Hnil Hsnoc s.
  remember (String.length s) as n eqn:Hn. revert s Hn.
  induction n as [| n IH]; intros s Hn.
  - destruct s; [exact Hnil | discriminate].
  - destruct (string_last s) as (s' & c & ->); [now destruct s |].
    rewrite length_snoc in Hn. apply Hsnoc, IH. congruence.
Qed.

Lemma unhexlify_snoc (s : string) (c : ascii) (a : Z) :
  unhexlify (s ++ String c "") a
  = match unhexlify s a, hex_value c with
    | Some v, Some d => Some (16 * v + d)
    | _, _ => None
    end.
Proof.
  revert a. induction s as [| b s IH]; intros a; simpl.
  - now destruct (hex_value c).
  - destruct (hex_value b); [apply IH | reflexivity].
Qed.

Lemma casefold_snoc (s : string) (c : ascii) :
  casefold (s ++ String c "") = (casefold s ++ String (lower c) "")%string.
Proof. induction s as [| a s IH]; simpl; congruence. Qed.

Lemma append_snoc (s t : string) (c : ascii) :
  ((s ++ String c "") ++ t = s ++ String c t)%string.
Proof. induction s as [| a s IH]; simpl; congruence. Qed.

Lemma hexlify_unhexlify (s : string) :
  forall a v acc,
    unhexlify s a = Some v ->
    hexlify (String.length s) v acc = (casefold s ++ acc)%string.
Proof.
  induction s as [| s c IH] using string_snoc_ind; intros a v acc Hv.
  - reflexivity.
  - rewrite unhexlify_snoc in Hv.
    destruct (unhexlify s a) as [v' |] eqn:Hs; [| discriminate].
    destruct (hex_value c) as [d |] eqn:Hc; [| discriminate].
    assert (v = 16 * v' + d) as -> by congruence.
    destruct (hex_char_hex_value c d Hc) as [Hchar Hd].
    rewrite length_snoc, casefold_snoc, append_snoc. cbn [hexlify].
    replace ((16 * v' + d) / 16) with v'
      by (rewrite Z.mul_comm, Z.div_add_l, Z.div_small by lia; lia).
    replace ((16 * v' + d) mod 16) with d
      by (rewrite Z.mul_comm, Z.add_comm, Z.mod_add, Z.mod_small by lia; lia).
    rewrite Hchar. now apply (IH a).
Qed.

Lemma append_empty (s : string) : (s ++ "")%string = s.
Proof. induction s as [| a s IH]; simpl; congruence. Qed.

Lemma ObjectId_str_parses_back_aux (o : ObjectId) :
  0 <= binary o < 2 ^ 96 ->
  String.length (ObjectId_str o) = 24%nat
  /\ ObjectId_parse (ObjectId_str o) = Some o.
Proof.
  intros Hrange. unfold ObjectId_parse, ObjectId_str.
  rewrite length_hexlify. split; [reflexivity |].
  cbn [Nat.add String.length Nat.eqb]. rewrite unhexlify_hexlify.
  cbn [unhexlify option_map]. change (16 ^ Z.of_nat 24) with (2 ^ 96).
  rewrite Z.mul_0_r, Z.add_0_l, Z.mod_small by exact Hrange.
  now destruct o.
Qed.

(** X1: the string of an ObjectId of twelve bytes has 24 characters and
    parses back to that ObjectId. *)
Theorem ObjectId_str_parses_back (o : ObjectId) :
  0 <= binary o < 2 ^ 96 ->
  String.length (ObjectId_str o) = 24%nat
  /\ ObjectId_parse (ObjectId_str o) = Some o.
Proof. apply ObjectId_str_parses_back_aux. Qed.

Lemma ObjectId_str_parses_back_witness :
  ObjectId_parse (ObjectId_str (Oid 255)) = Some (Oid 255).
Proof.
  apply (ObjectId_str_parses_back (Oid 255)). cbn [binary]. lia.
Defined.

Lemma ObjectId_str_parse (s : string) (o : ObjectId) :
  ObjectId_parse s = Some o -> ObjectId_str o = casefold s.
Proof.
  unfold ObjectId_parse, ObjectId_str.
  destruct (Nat.eqb (String.length s) 24) eqn:Hlen; [| discriminate].
  apply Nat.eqb_eq in Hlen.
  destruct (unhexlify s 0) as [v |] eqn:Hv; [| discriminate].
  intros [= <-]. cbn [binary]. rewrite <- Hlen.
  rewrite (hexlify_unhexlify s 0 v "" Hv). apply append_empty.
Qed.

(* ------------------------------------------------------------------ *)
(** ** More on looking a product up *)

(** X2: [get_product] ends in one of four ways and no other: the 500 when
    no store is configured, the 400 when [ObjectId] does not accept the id,
    the 404 when it does, or a dict whose "_id" is a string. It raises no
    KeyError or TypeError, whatever the stored records look like. *)
Theorem get_product_outcome_is_one_of_four (str_other : value -> string)
  (db : option Database) (product_id : string) :
  match get_product str_other db product_id with
  | Ok r =>
      db <> None /\ ObjectId_new product_id <> None
      /\ exists d s, r = VDict d /\ lookup d "_id" = Some (VStr s)
  | Raise e =>
      (e = StoreUnavailable /\ db = None)
      \/ (e = InvalidIdentifier /\ db <> None /\ ObjectId_new product_id = None)
      \/ (e = NotFound /\ db <> None /\ ObjectId_new product_id <> None)
  | Unmodelled => False
  end.
Proof.
  destruct db as [store |]; [| left; now split].
  rewrite get_product_spec.
  destruct (ObjectId_new product_id) as [obj_id |] eqn:Hnew.
  - destruct (find _ (products store)) as [d |] eqn:Hfind.
    + repeat split; try discriminate.
      apply find_some in Hfind as [_ Hid].
      destruct (field_eq_object_truthy _ _ (ObjectId_new_object _ _ Hnew) Hid)
        as (v & Hv & Htruthy).
      eexists _, _. split; [reflexivity |].
      unfold stringified. rewrite Hv, Htruthy. apply lookup_setitem_same.
    + right. right. repeat split; discriminate.
  - right. left. repeat split; discriminate.
Qed.

Lemma is_space_lower (c : ascii) : is_space (lower c) = is_space c.
Proof. destruct c as [[] [] [] [] [] [] [] []]; reflexivity. Qed.

Lemma fromhex_casefold (s : string) : fromhex (casefold s) = fromhex s.
Proof.
  assert (H : forall n s, (String.length s <= n)%nat ->
                fromhex (casefold s) = fromhex s).
  { clear s. induction n as [| n IH]; intros [| c s] Hn; simpl in *;
      try reflexivity; try lia.
    rewrite is_space_lower, hex_value_lower.
    destruct (is_space c); [apply IH; lia |].
    destruct (hex_value c); [| reflexivity].
    destruct s as [| c' s']; simpl in *; [reflexivity |].
    rewrite hex_value_lower. destruct (hex_value c'); [| reflexivity].
    now rewrite IH by lia. }
  now apply (H (String.length s)).
Qed.

Lemma ObjectId_new_casefold (s : string) :
  ObjectId_new (casefold s) = ObjectId_new s.
Proof.
  unfold ObjectId_new.
  now rewrite ObjectId_parse_casefold, length_casefold, fromhex_casefold.
Qed.

(** X3: the id is read without regard to the case of its hexadecimal
    digits: asking for an id and for its lower-case form give the same
    result. *)
Theorem get_product_ignores_case (str_other : value -> string)
  (db : option Database) (product_id : string) :
  get_product str_other db (casefold product_id)
  = get_product str_other db product_id.
Proof.
  destruct db as [store |]; [| reflexivity].
  now rewrite !get_product_spec, ObjectId_new_casefold.
Qed.

(** X4: on a store whose identifiers are ObjectIds, the "_id" of the
    record that [get_product] returns is the lower-case form of the id that
    was asked for. *)
Theorem get_product_returns_lowercase_id (str_other : value -> string)
  (store : Database) (product_id : string) (r : dict) :
  native_ids (products store) ->
  get_product str_other (Some store) product_id = Ok (VDict r) ->
  lookup r "_id" = Some (VStr (casefold product_id)).
Proof.
  intros Hnative. rewrite get_product_spec.
  destruct (ObjectId_new product_id) as [obj_id |] eqn:Hnew;
    [| discriminate].
  destruct (find _ (products store)) as [d |] eqn:Hfind; [| discriminate].
  intros [= <-]. apply find_some in Hfind as [Hd Hid].
  apply field_eq_object_id in Hid;
    [| exact (ObjectId_new_object _ _ Hnew) | intros v; apply (Hnative d v Hd)].
  destruct (ObjectId_new_cases _ _ Hnew) as [(o & -> & Hparse) | (b & -> & _)].
  - rewrite <- (ObjectId_str_parse _ _ Hparse).
    now apply (stringified_returned_as str_other d).
  - destruct (Hnative d _ Hd Hid) as [o Ho]. discriminate.
Qed.

Lemma get_product_returns_lowercase_id_witness :
  lookup [("_id", VStr "00000000000000000000000a");
          ("category", VStr "Men")] "_id"
  = Some (VStr (casefold "00000000000000000000000A")).
Proof.
  apply (get_product_returns_lowercase_id str_unused
           {| collections :=
                [("clothingproduct",
                  [[("_id", VOid (Oid 10)); ("category", VStr "Men")]])];
              next_id := 11 |}
           "00000000000000000000000A").
  - intros d v [<- | []] [= <-]. eexists; reflexivity.
  - reflexivity.
Defined.

Lemma NoDup_map_injective {A B : Type} (f : A -> B) (xs : list A) (x y : A) :
  NoDup (map f xs) -> In x xs -> In y xs -> f x = f y -> x = y.
Proof.
  induction xs as [| z xs IH]; simpl; intros Hnd Hx Hy Hf; [destruct Hx |].
  inversion Hnd as [| ? ? Hnotin Hnd']; subst.
  destruct Hx as [-> | Hx], Hy as [-> | Hy]; auto.
  - destruct Hnotin. rewrite Hf. now apply in_map.
  - destruct Hnotin. rewrite <- Hf. now apply in_map.
Qed.

Lemma get_product_by_id (str_other : value -> string) (store : Database)
  (d : dict) (o : ObjectId) :
  well_formed store -> In d (products store) ->
  lookup d "_id" = Some (VOid o) ->
  get_product str_other (Some store) (ObjectId_str o)
  = Ok (VDict (stringified str_other d)).
Proof.
  intros (Hnext & Hids & Hnodup) Hd Hid.
  assert (Hnative : forall d' v, In d' (products store) ->
                      lookup d' "_id" = Some v -> exists o', v = VOid o').
  { intros d' v Hd' Hv. destruct (Hids d' Hd') as (o' & Ho' & _).
    exists o'. congruence. }
  assert (Hrange : 0 <= binary o < 2 ^ 96).
  { destruct (Hids d Hd) as (o' & Ho' & Hlt).
    assert (o' = o) as -> by congruence. lia. }
  rewrite get_product_spec. unfold ObjectId_new.
  rewrite (proj2 (ObjectId_str_parses_back_aux o Hrange)).
  destruct (find _ (products store)) as [d' |] eqn:Hfind.
  - apply find_some in Hfind as [Hd' Hid'].
    apply field_eq_oid in Hid'; [| intros v; apply (Hnative d' v Hd')].
    assert (d' = d) as ->; [| reflexivity].
    apply (NoDup_map_injective (fun d => lookup d "_id") (products store));
      try assumption. congruence.
  - pose proof (find_none _ _ Hfind d Hd) as Hnot. cbn beta in Hnot.
    rewrite (proj2 (field_eq_oid o (lookup d "_id")
                      ltac:(intros v; apply (Hnative d v Hd))) Hid) in Hnot.
    discriminate.
Qed.

(** X5: on a well-formed store, the "_id" string of any record that
    [list_products] returns, given to [get_product], brings back that same
    record. *)
Theorem listed_records_can_be_fetched (str_other : value -> string)
  (store : Database) (category : option string)
  (min_price max_price : option float) (size color q : option string)
  (limit : Z) (rs : list dict) (r : dict) :
  well_formed store ->
  list_products str_other (Some store) category min_price max_price size
    color q limit = Ok rs ->
  In r rs ->
  exists s, lookup r "_id" = Some (VStr s)
            /\ get_product str_other (Some store) s = Ok (VDict r).
Proof.
  intros Hwf Hrs Hr.
  destruct (list_products_sound _ _ _ _ _ _ _ _ _ _ _ Hrs Hr)
    as (d & Hd & -> & _).
  destruct (proj1 (proj2 Hwf) d Hd) as (o & Hid & _).
  exists (ObjectId_str o). split.
  - now apply (stringified_returned_as str_other d).
  - now apply get_product_by_id.
Qed.

Lemma men_store_well_formed : well_formed men_store.
Proof.
  repeat split.
  - discriminate.
  - discriminate.
  - intros d [<- | [<- | []]]; eexists; (split; [reflexivity | cbn; lia]).
  - repeat constructor; cbn [map In products collection men_store collections
                              String.eqb Ascii.eqb Bool.eqb lookup R1 R2];
      intros H; repeat (destruct H as [[=] | H]); exact H.
Qed.

Lemma listed_records_can_be_fetched_witness :
  exists s,
    lookup [("_id", VStr "000000000000000000000001");
            ("category", VStr "Men"); ("price", VFloat 80%float)] "_id"
    = Some (VStr s)
    /\ get_product str_unused (Some men_store) s
       = Ok (VDict [("_id", VStr "000000000000000000000001");
                    ("category", VStr "Men"); ("price", VFloat 80%float)]).
Proof.
  apply (listed_records_can_be_fetched str_unused men_store
           (Some "Men") (Some 50%float) None None None None 50
           [ [("_id", VStr "000000000000000000000001");
              ("category", VStr "Men"); ("price", VFloat 80%float)] ]).
  - exact men_store_well_formed.
  - reflexivity.
  - now left.
Defined.

(* ------------------------------------------------------------------ *)
(** ** Seeding keeps the store well formed *)

Lemma seed_products_store (store : Database) (log : list (string * dict)) :
  let n := next_id store in
  let ids := [VOid (Oid n); VOid (Oid (n + 1)); VOid (Oid (n + 2))] in
  exists cs,
    seed_products {| db := Some store; inserts := log |}
    = (Ok (VDict [("inserted", VList ids)]),
       {| db := Some {| collections := cs; next_id := n + 3 |};
          inserts := log ++ map (pair "clothingproduct") sample_products |})
    /\ collection cs "clothingproduct"
       = products store
         ++ map (fun p_id => setitem (fst p_id) "_id" (snd p_id))
              (combine sample_products ids).
Proof.
  cbv zeta. eexists. split.
  - unfold seed_products, sample_products, seed_loop, create_document.
    cbn [db inserts next_id collections app].
    rewrite <- !app_assoc. cbn [app map].
    replace (next_id store + 1 + 1 + 1) with (next_id store + 3) by lia.
    replace (next_id store + 1 + 1) with (next_id store + 2) by lia.
    reflexivity.
  - rewrite !collection_store_into, <- !app_assoc. reflexivity.
Qed.

Lemma seeded_ids (n : Z) (d : dict) :
  In d (map (fun p_id => setitem (fst p_id) "_id" (snd p_id))
          (combine sample_products
             [VOid (Oid n); VOid (Oid (n + 1)); VOid (Oid (n + 2))])) ->
  lookup d "_id" = Some (VOid (Oid n))
  \/ lookup d "_id" = Some (VOid (Oid (n + 1)))
  \/ lookup d "_id" = Some (VOid (Oid (n + 2))).
Proof.
  cbn. intros [<- | [<- | [<- | []]]]; cbn; auto.
Qed.

Lemma seed_products_well_formed_aux (store store' : Database)
  (log log' : list (string * dict)) (result : outcome value) :
  well_formed store -> next_id store + 3 <= 2 ^ 96 ->
  seed_products {| db := Some store; inserts := log |}
  = (result, {| db := Some store'; inserts := log' |}) ->
  well_formed store'.
Proof.
  intros (Hnext & Hids & Hnodup) Hroom Hrun.
  destruct (seed_products_store store log) as (cs & Heq & Hproducts).
  rewrite Heq in Hrun. injection Hrun as _ <- _.
  unfold well_formed, products. cbn [collections next_id]. rewrite Hproducts.
  split; [lia |]. split.
  - intros d Hd. apply in_app_or in Hd as [Hd | Hd].
    + destruct (Hids d Hd) as (o & Ho & Hlt). exists o. split; [exact Ho | lia].
    + destruct (seeded_ids _ _ Hd) as [H | [H | H]];
        eexists; (split; [exact H | cbn [binary]; lia]).
  - rewrite map_app. apply NoDup_app.
    + exact Hnodup.
    + cbn. repeat constructor; cbn [In];
        intros H; repeat (destruct H as [[= H] | H]; [lia |]); exact H.
    + intros x Hx Hnew. apply in_map_iff in Hx as (d & <- & Hd).
      destruct (Hids d Hd) as (o & Ho & Hlt). rewrite Ho in Hnew.
      cbn in Hnew.
      repeat (destruct Hnew as [[= Hnew] | Hnew];
              [rewrite <- Hnew in Hlt; cbn [binary] in Hlt; lia |]).
      exact Hnew.
Qed.

(** X6: seeding a well-formed store that has room for three more
    identifiers leaves it well formed: every product still carries an
    ObjectId of its own, below the next one to be generated. *)
Theorem seed_products_keeps_well_formed (store store' : Database)
  (log log' : list (string * dict)) (result : outcome value) :
  well_formed store -> next_id store + 3 <= 2 ^ 96 ->
  seed_products {| db := Some store; inserts := log |}
  = (result, {| db := Some store'; inserts := log' |}) ->
  well_formed store'.
Proof. apply seed_products_well_formed_aux. Qed.

Lemma empty_store_well_formed : well_formed empty_store.
Proof.
  repeat split; try discriminate.
  - intros d [].
  - constructor.
Qed.

Lemma seed_products_keeps_well_formed_witness :
  well_formed
    {| collections :=
         [("clothingproduct",
           map (fun p_id => setitem (fst p_id) "_id" (snd p_id))
             (combine sample_products
                [VOid (Oid 0); VOid (Oid 1); VOid (Oid 2)]))];
       next_id := 3 |}.
Proof.
  eapply (seed_products_keeps_well_formed empty_store _ [] _ _
            empty_store_well_formed).
  - cbn. lia.
  - reflexivity.
Defined.

(** X7: after [seed_products] on a well-formed store with room, each
    identifier it returned, written as a string and given to [get_product],
    brings back the sample product it was generated for, with that string
    under "_id". *)
Theorem seeded_products_can_be_fetched (str_other : value -> string)
  (store store' : Database) (log log' : list (string * dict))
  (result : outcome value) (i : nat) (p : dict) :
  well_formed store -> next_id store + 3 <= 2 ^ 96 ->
  seed_products {| db := Some store; inserts := log |}
  = (result, {| db := Some store'; inserts := log' |}) ->
  nth_error sample_products i = Some p ->
  exists ids,
    result = Ok (VDict [("inserted", VList ids)])
    /\ nth_error ids i = Some (VOid (Oid (next_id store + Z.of_nat i)))
    /\ get_product str_other (Some store')
         (ObjectId_str (Oid (next_id store + Z.of_nat i)))
       = Ok (VDict (p ++ [("_id",
                           VStr (ObjectId_str
                                   (Oid (next_id store + Z.of_nat i))))])).
Proof.
  intros Hwf Hroom Hrun Hp.
  pose proof (seed_products_well_formed_aux _ _ _ _ _ Hwf Hroom Hrun) as Hwf'.
  destruct (seed_products_store store log) as (cs & Heq & Hproducts).
  rewrite Heq in Hrun. injection Hrun as <- <- _.
  eexists. split; [reflexivity |].
  assert (Hstored : forall d o,
            In d (map (fun p_id => setitem (fst p_id) "_id" (snd p_id))
                    (combine sample_products
                       [VOid (Oid (next_id store));
                        VOid (Oid (next_id store + 1));
                        VOid (Oid (next_id store + 2))])) ->
            lookup d "_id" = Some (VOid o) ->
            get_product str_other
              (Some {| collections := cs; next_id := next_id store + 3 |})
              (ObjectId_str o)
            = Ok (VDict (stringified str_other d))).
  { intros d o Hd Hid. apply get_product_by_id; try assumption.
    unfold products. cbn [collections]. rewrite Hproducts.
    apply in_or_app. now right. }
  destruct i as [| [| [| i]]]; cbn in Hp;
    [| | | destruct i; discriminate];
    injection Hp as <-.
  - change (Z.of_nat 0) with 0. rewrite Z.add_0_r. split; [reflexivity |].
    rewrite (Hstored (setitem (nth 0 sample_products []) "_id"
                        (VOid (Oid (next_id store))))
               (Oid (next_id store)));
      [reflexivity | cbn; auto | reflexivity].
  - change (Z.of_nat 1) with 1. split; [reflexivity |].
    rewrite (Hstored (setitem (nth 1 sample_products []) "_id"
                        (VOid (Oid (next_id store + 1))))
               (Oid (next_id store + 1)));
      [reflexivity | cbn; auto | reflexivity].
  - change (Z.of_nat 2) with 2. split; [reflexivity |].
    rewrite (Hstored (setitem (nth 2 sample_products []) "_id"
                        (VOid (Oid (next_id store + 2))))
               (Oid (next_id store + 2)));
      [reflexivity | cbn; auto | reflexivity].
Qed.

Lemma seeded_products_can_be_fetched_witness :
  exists ids,
    Ok (VDict [("inserted",
                VList [VOid (Oid 0); VOid (Oid 1); VOid (Oid 2)])])
    = Ok (VDict [("inserted", VList ids)])
    /\ nth_error ids 1 = Some (VOid (Oid (0 + 1)))
    /\ get_product str_unused
         (snd (seed_products {| db := Some empty_store; inserts := [] |})).(db)
         (ObjectId_str (Oid (0 + 1)))
       = Ok (VDict
               ([ ("title", VStr "Women's Linen Summer Dress");
                  ("description", VStr "Breathable, elegant, and perfect for warm days.");
                  ("price", VFloat 64.50%float);
                  ("category", VStr "Women");
                  ("images", VList [VStr "https://images.unsplash.com/photo-1519238263530-99bdd11df2ea?q=80&w=1200&auto=format&fit=crop"]);
                  ("sizes", VList [VStr "XS"; VStr "S"; VStr "M"; VStr "L"]);
                  ("colors", VList [VStr "Beige"; VStr "Olive"]);
                  ("rating", VFloat 4.7%float);
                  ("discount_percent", VInt 0);
                  ("in_stock", VBool true);
                  ("tags", VList [VStr "dress"; VStr "linen"; VStr "women"]) ]
                ++ [("_id", VStr (ObjectId_str (Oid (0 + 1))))])).
Proof.
  eapply (seeded_products_can_be_fetched str_unused empty_store _ [] _ _ 1%nat _
            empty_store_well_formed).
  - cbn. lia.
  - reflexivity.
  - reflexivity.
Defined.

(* ------------------------------------------------------------------ *)
(** ** What a listing holds *)

Lemma matches_build_query_defined d category min_price max_price size color q :
  (forall text, q = Some text -> regex.compile text <> None) ->
  matches d (build_query category min_price max_price size color q) <> None.
Proof.
  intros Hq. rewrite matches_build_query. unfold query_holds.
  pose proof (text_holds_defined q d Hq).
  destruct (text_holds q d); [discriminate | congruence].
Qed.

Lemma select_matching category min_price max_price size color q docs :
  (forall text, q = Some text -> regex.compile text <> None) ->
  select docs (build_query category min_price max_price size color q)
  = Some (matching category min_price max_price size color q docs).
Proof.
  intros Hq. unfold matching.
  induction docs as [| d docs IH]; [reflexivity |].
  cbn [select filter]. rewrite IH.
  pose proof (matches_build_query_defined d category min_price max_price
                size color q Hq) as Hd.
  destruct (matches d _) as [[] |]; [reflexivity | reflexivity | congruence].
Qed.

Lemma list_products_exact_aux (str_other : value -> string) (store : Database)
  category min_price max_price size color q limit :
  (forall text, q = Some text -> regex.compile text <> None) ->
  list_products str_other (Some store) category min_price max_price size
    color q limit
  = Ok (map (stringified str_other)
          (firstn (Z.to_nat limit)
             (matching category min_price max_price size color q
                (products store)))).
Proof.
  intros Hq. apply list_products_configured.
  unfold get_documents. fold (products store).
  now rewrite select_matching.
Qed.

Lemma text_holds_compiles (q : option string) (d : dict) (b : bool) :
  text_holds q d = Some b ->
  forall text, q = Some text -> regex.compile text <> None.
Proof.
  intros H text ->. unfold text_holds in H.
  destruct (truthy (VStr text)) eqn:Htruthy.
  - destruct (regex.compile text); discriminate.
  - destruct text; [discriminate | discriminate Htruthy].
Qed.

Lemma weaker_query_holds category category' min_price min_price'
  max_price max_price' size size' color color' q q' (d : dict) :
  weaker category' category -> weaker min_price' min_price ->
  weaker max_price' max_price -> weaker size' size ->
  weaker color' color -> weaker q' q ->
  query_holds category min_price max_price size color q d = Some true ->
  query_holds category' min_price' max_price' size' color' q' d = Some true.
Proof.
  intros Hc Hlo Hhi Hs Hk Hq Hholds.
  destruct (query_holds_true _ _ _ _ _ _ _ Hholds) as (H1 & H2 & H3 & H4 & H5).
  unfold price_holds in H2. apply andb_true_iff in H2 as [H2 H2'].
  unfold query_holds, price_holds.
  destruct Hc as [-> | ->], Hlo as [-> | ->], Hhi as [-> | ->],
    Hs as [-> | ->], Hk as [-> | ->], Hq as [-> | ->];
    cbn [text_holds category_holds member_holds option_map];
    rewrite ?H5; cbn [option_map]; rewrite ?H1, ?H2, ?H2', ?H3, ?H4;
    reflexivity.
Qed.

(** X9: leaving filter fields out only widens a listing. When the limit
    covers the whole collection, a record listed under a filter is also
    listed under any filter that keeps some of its fields and drops the
    others. *)
Theorem dropping_filter_fields_widens (str_other : value -> string)
  (store : Database)
  (category category' : option string)
  (min_price min_price' max_price max_price' : option float)
  (size size' color color' q q' : option string)
  (limit : Z) (rs : list dict) (r : dict) :
  weaker category' category -> weaker min_price' min_price ->
  weaker max_price' max_price -> weaker size' size ->
  weaker color' color -> weaker q' q ->
  Z.of_nat (List.length (products store)) <= limit ->
  list_products str_other (Some store) category min_price max_price size
    color q limit = Ok rs ->
  In r rs ->
  exists rs',
    list_products str_other (Some store) category' min_price' max_price'
      size' color' q' limit = Ok rs'
    /\ In r rs'.
Proof.
  intros Hc Hlo Hhi Hs Hk Hq Hlimit Hrs Hr.
  destruct (list_products_sound _ _ _ _ _ _ _ _ _ _ _ Hrs Hr)
    as (d & Hd & -> & Hmatch).
  rewrite matches_build_query in Hmatch.
  assert (Hq' : forall text, q' = Some text -> regex.compile text <> None).
  { destruct (query_holds_true _ _ _ _ _ _ _ Hmatch) as (_ & _ & _ & _ & Ht).
    destruct Hq as [-> | ->]; [| discriminate].
    exact (text_holds_compiles _ _ _ Ht). }
  eexists. split; [now apply list_products_exact_aux |].
  apply in_map. rewrite firstn_all2.
  - unfold matching. apply filter_In. split; [exact Hd |].
    rewrite matches_build_query.
    now rewrite (weaker_query_holds _ _ _ _ _ _ _ _ _ _ _ _ d
                   Hc Hlo Hhi Hs Hk Hq Hmatch).
  - unfold matching.
    pose proof (filter_length_le
                  (fun d => match matches d
                                    (build_query category' min_price'
                                       max_price' size' color' q') with
                            | Some b => b
                            | None => false
                            end) (products store)).
    lia.
Qed.

Lemma dropping_filter_fields_widens_witness :
  exists rs',
    list_products str_unused (Some men_store) None None None None None None 50
    = Ok rs'
    /\ In [("_id", VStr "000000000000000000000001");
           ("category", VStr "Men"); ("price", VFloat 80%float)] rs'.
Proof.
  apply (dropping_filter_fields_widens str_unused men_store
           (Some "Men") None (Some 50%float) None None None None None
           None None None None 50
           [ [("_id", VStr "000000000000000000000001");
              ("category", VStr "Men"); ("price", VFloat 80%float)] ]);
    try (now right); try (now left).
  - cbn. lia.
  - reflexivity.
Defined.

(* ------------------------------------------------------------------ *)
(** ** The free-text query does not see case *)

Lemma dot_lower (c : ascii) : Ascii.eqb (lower c) "." = Ascii.eqb c ".".
Proof. destruct c as [[] [] [] [] [] [] [] []]; reflexivity. Qed.

Lemma plain_lower (c : ascii) : regex.is_plain (lower c) = regex.is_plain c.
Proof. destruct c as [[] [] [] [] [] [] [] []]; reflexivity. Qed.

Lemma compile_casefold (t1 t2 : string) :
  casefold t1 = casefold t2 ->
  match regex.compile t1, regex.compile t2 with
  | Some a1, Some a2 =>
      Forall2 (fun a b => match a, b with
                          | regex.Lit x, regex.Lit y => lower x = lower y
                          | regex.AnyChar, regex.AnyChar => True
                          | _, _ => False
                          end) a1 a2
  | None, None => True
  | _, _ => False
  end.
Proof.
  revert t2. induction t1 as [| c1 r1 IH]; intros [| c2 r2]; simpl;
    try discriminate; [constructor |].
  intros [= Hc Hr]. specialize (IH r2 Hr).
  rewrite <- (dot_lower c1), <- (dot_lower c2), <- (plain_lower c1),
    <- (plain_lower c2), Hc.
  destruct (Ascii.eqb (lower c2) ".").
  - destruct (regex.compile r1), (regex.compile r2); simpl; try exact IH.
    now constructor.
  - destruct (regex.is_plain (lower c2)); [| exact I].
    destruct (regex.compile r1), (regex.compile r2); simpl; try exact IH.
    now constructor.
Qed.

Lemma match_from_ext (a1 a2 : list regex.atom) :
  Forall2 (fun a b => match a, b with
                      | regex.Lit x, regex.Lit y => lower x = lower y
                      | regex.AnyChar, regex.AnyChar => True
                      | _, _ => False
                      end) a1 a2 ->
  forall s inside,
    regex.match_from true inside a1 s = regex.match_from true inside a2 s.
Proof.
  intros H s. revert a1 a2 H.
  induction s as [| c s IH]; intros a1 a2 H inside.
  - now destruct H.
  - cbn [regex.match_from].
    destruct (inside && is_continuation c); [now apply IH |].
    destruct H as [| a b r1 r2 Hab Hr]; [reflexivity |].
    destruct a as [x |], b as [y |]; try contradiction.
    + cbn [regex.atom_matches]. now rewrite Hab, (IH r1 r2 Hr).
    + now rewrite (IH r1 r2 Hr).
Qed.

Lemma search_ext (a1 a2 : list regex.atom) :
  (forall s, regex.match_here true a1 s = regex.match_here true a2 s) ->
  forall s, regex.search true a1 s = regex.search true a2 s.
Proof.
  intros H s. induction s as [| x s IH]; simpl; rewrite H; [reflexivity |].
  now rewrite IH.
Qed.

Lemma field_search_ext (a1 a2 : list regex.atom) (fv : option value) :
  (forall s, regex.match_here true a1 s = regex.match_here true a2 s) ->
  field_search true a1 fv = field_search true a2 fv.
Proof.
  intros H. unfold field_search.
  induction (candidates fv) as [| c cs IH]; simpl; [reflexivity |].
  rewrite IH. destruct c; try reflexivity. now rewrite (search_ext a1 a2 H).
Qed.

Lemma casefold_empty (t1 t2 : string) :
  casefold t1 = casefold t2 -> truthy (VStr t1) = truthy (VStr t2).
Proof. destruct t1, t2; simpl; try discriminate; reflexivity. Qed.

Lemma text_holds_casefold (t1 t2 : string) (d : dict) :
  casefold t1 = casefold t2 ->
  text_holds (Some t1) d = text_holds (Some t2) d.
Proof.
  intros Hfold. unfold text_holds. rewrite (casefold_empty t1 t2 Hfold).
  destruct (truthy (VStr t2)); [| reflexivity].
  pose proof (compile_casefold t1 t2 Hfold) as H.
  destruct (regex.compile t1) as [a1 |], (regex.compile t2) as [a2 |];
    try contradiction; [| reflexivity].
  assert (H' : forall s, regex.match_here true a1 s = regex.match_here true a2 s)
    by (intros s; apply (match_from_ext a1 a2 H)).
  simpl. unfold pattern_holds. now rewrite !(field_search_ext a1 a2 _ H').
Qed.

Lemma select_ext (query1 query2 : dict) (docs : list dict) :
  (forall d, matches d query1 = matches d query2) ->
  select docs query1 = select docs query2.
Proof.
  intros H. induction docs as [| d docs IH]; simpl; [reflexivity |].
  now rewrite H, IH.
Qed.

(** X10: the free-text query does not see case. Two query texts that are
    the same once lower-cased, the first within the patterns modelled, give
    the same listing. *)
Theorem list_products_ignores_case_of_q (str_other : value -> string)
  (db : option Database) (category : option string)
  (min_price max_price : option float) (size color : option string)
  (t1 t2 : string) (limit : Z) :
  regex.compile t1 <> None ->
  casefold t1 = casefold t2 ->
  list_products str_other db category min_price max_price size color
    (Some t1) limit
  = list_products str_other db category min_price max_price size color
      (Some t2) limit.
Proof.
  intros _ Hfold. destruct db as [store |]; [| reflexivity].
  unfold list_products, get_documents.
  rewrite (select_ext
             (build_query category min_price max_price size color (Some t1))
             (build_query category min_price max_price size color (Some t2)));
    [reflexivity |].
  intros d. rewrite !matches_build_query. unfold query_holds.
  now rewrite (text_holds_casefold t1 t2 d Hfold).
Qed.

Lemma list_products_ignores_case_of_q_witness :
  list_products str_unused (Some sparse_store) None None None None None
    (Some "SuMMer") 50
  = list_products str_unused (Some sparse_store) None None None None None
      (Some "summer") 50.
Proof.
  apply (list_products_ignores_case_of_q str_unused (Some sparse_store)
           None None None None None "SuMMer" "summer" 50).
  - discriminate.
  - reflexivity.
Defined.

(* ------------------------------------------------------------------ *)
(** ** Category, size and color are exact tests *)

Lemma lookup_exact_entries category min_price max_price size color q :
  lookup (build_query category min_price max_price size color q) "category"
  = (if truthy_opt category then option_map VStr category else None)
  /\ lookup (build_query category min_price max_price size color q) "sizes"
     = (if truthy_opt size
        then option_map (fun m => VDict [("$in", VList [VStr m])]) size
        else None)
  /\ lookup (build_query category min_price max_price size color q) "colors"
     = (if truthy_opt color
        then option_map (fun m => VDict [("$in", VList [VStr m])]) color
        else None).
Proof.
  destruct category as [[| ? ?] |], min_price, max_price,
    size as [[| ? ?] |], color as [[| ? ?] |], q as [[| ? ?] |];
    repeat split.
Qed.

Lemma field_in_strings (m : string) (xs : list string) :
  field_in [VStr m] (Some (VList (map VStr xs))) = existsb (String.eqb m) xs.
Proof.
  unfold field_in, field_eq. cbn [existsb candidates value_eqb].
  rewrite orb_false_r. cbn [orb].
  induction xs as [| x xs IH]; simpl; [reflexivity |]. now rewrite IH.
Qed.

(** X11: a category, size or color that is given and not empty is tested
    exactly and with regard to case. The query holds the category itself
    under "category", matched by a record whose category is that very
    string, and [{"$in": [value]}] under "sizes" and "colors", matched by a
    record whose list of sizes (of colors) has that very string among its
    elements. *)
Theorem category_size_color_are_exact
  (category : option string) (min_price max_price : option float)
  (size color q : option string) (wanted : string) :
  wanted <> "" ->
  (category = Some wanted ->
   lookup (build_query category min_price max_price size color q) "category"
   = Some (VStr wanted)
   /\ forall d x, lookup d "category" = Some (VStr x) ->
        eval_clause d ("category", VStr wanted) = Some (String.eqb wanted x))
  /\ (size = Some wanted ->
      lookup (build_query category min_price max_price size color q) "sizes"
      = Some (VDict [("$in", VList [VStr wanted])])
      /\ forall d xs, lookup d "sizes" = Some (VList (map VStr xs)) ->
           eval_clause d ("sizes", VDict [("$in", VList [VStr wanted])])
           = Some (existsb (String.eqb wanted) xs))
  /\ (color = Some wanted ->
      lookup (build_query category min_price max_price size color q) "colors"
      = Some (VDict [("$in", VList [VStr wanted])])
      /\ forall d xs, lookup d "colors" = Some (VList (map VStr xs)) ->
           eval_clause d ("colors", VDict [("$in", VList [VStr wanted])])
           = Some (existsb (String.eqb wanted) xs)).
Proof.
  intros Hwanted.
  assert (Htruthy : truthy (VStr wanted) = true)
    by (destruct wanted; [congruence | reflexivity]).
  destruct (lookup_exact_entries category min_price max_price size color q)
    as (Hc & Hs & Hk).
  split; [| split]; intros ->.
  - split; [rewrite Hc; cbn [truthy_opt]; now rewrite Htruthy |].
    intros d x Hx. cbn. rewrite Hx. cbn. now rewrite orb_false_r.
  - split; [rewrite Hs; cbn [truthy_opt]; now rewrite Htruthy |].
    intros d xs Hxs. cbn - [field_in]. rewrite Hxs, field_in_strings.
    now rewrite andb_true_r.
  - split; [rewrite Hk; cbn [truthy_opt]; now rewrite Htruthy |].
    intros d xs Hxs. cbn - [field_in]. rewrite Hxs, field_in_strings.
    now rewrite andb_true_r.
Qed.

Lemma category_size_color_are_exact_witness :
  eval_clause [("sizes", VList [VStr "S"; VStr "M"])]
    ("sizes", VDict [("$in", VList [VStr "M"])]) = Some true
  /\ eval_clause [("sizes", VList [VStr "S"; VStr "M"])]
       ("sizes", VDict [("$in", VList [VStr "m"])]) = Some false.
Proof.
  split.
  - exact (proj2 (proj1 (proj2 (category_size_color_are_exact
                                  None None None (Some "M") None None "M"
                                  ltac:(discriminate))) eq_refl)
             [("sizes", VList [VStr "S"; VStr "M"])] ["S"; "M"] eq_refl).
  - exact (proj2 (proj1 (proj2 (category_size_color_are_exact
                                  None None None (Some "m") None None "m"
                                  ltac:(discriminate))) eq_refl)
             [("sizes", VList [VStr "S"; VStr "M"])] ["S"; "M"] eq_refl).
Defined.

(* ------------------------------------------------------------------ *)
(** ** Which records the loop of [list_products] leaves alone *)

Lemma setitem_unchanged (d : dict) (k : string) (v : value) :
  lookup d k = Some v -> setitem d k v = d.
Proof.
  induction d as [| [k' v'] d IH]; simpl; [discriminate |].
  destruct (String.eqb k' k).
  - now intros [= ->].
  - intros H. now rewrite IH.
Qed.

Lemma stringified_unchanged (str_other : value -> string) (d : dict) :
  stringified str_other d = d
  <-> (forall v, lookup d "_id" = Some v ->
         truthy v = false \/ exists s, v = VStr s).
Proof.
  unfold stringified. split.
  - intros H v Hv. rewrite Hv in H.
    destruct (truthy v); [right | now left].
    assert (Hid : lookup (setitem d "_id" (VStr (py_str str_other v))) "_id"
                  = Some v) by now rewrite H.
    rewrite lookup_setitem_same in Hid. injection Hid as <-. eauto.
  - intros H. destruct (lookup d "_id") as [v |] eqn:Hv; [| reflexivity].
    destruct (H v eq_refl) as [-> | [s ->]]; [reflexivity |].
    destruct (truthy (VStr s)); [| reflexivity].
    now apply setitem_unchanged.
Qed.

(** X12: the loop that ends [list_products] hands a record back exactly as
    stored when, and only when, the record has no "_id", or a falsy one
    (None, False, 0, 0.0, an empty string, list or dict), or one that is
    already a string. *)
Theorem stringify_id_leaves_alone (str_other : value -> string) (d : dict) :
  stringify_id str_other d = Ok d
  <-> (forall v, lookup d "_id" = Some v ->
         truthy v = false \/ exists s, v = VStr s).
Proof.
  rewrite stringify_id_total, <- stringified_unchanged.
  split; [now intros [= ->] | now intros ->].
Qed.

(** X13: the loop is idempotent: a record it has been through comes out of
    it unchanged. *)
Theorem stringify_id_idempotent (str_other : value -> string) (d r : dict) :
  stringify_id str_other d = Ok r -> stringify_id str_other r = Ok r.
Proof.
  rewrite !stringify_id_total. intros [= <-]. f_equal.
  apply stringified_unchanged. unfold stringified.
  destruct (lookup d "_id") as [v |] eqn:Hv.
  - destruct (truthy v) eqn:Htruthy.
    + intros v'. rewrite lookup_setitem_same. intros [= <-]. eauto.
    + intros v'. rewrite Hv. intros [= <-]. now left.
  - intros v'. rewrite Hv. discriminate.
Qed.

Lemma stringify_id_idempotent_witness :
  stringify_id str_unused
    [("_id", VStr "000000000000000000000001"); ("category", VStr "Men");
     ("price", VFloat 80%float)]
  = Ok [("_id", VStr "000000000000000000000001"); ("category", VStr "Men");
        ("price", VFloat 80%float)].
Proof.
  apply (stringify_id_idempotent str_unused R1). reflexivity.
Defined.

(* ------------------------------------------------------------------ *)
(** ** The diagnostics endpoint *)


(** X14: whatever the store handle and the environment are, the response of
    [test_database] has the same six keys in the same order, "backend" says
    running, and "database_url" and "database_name" only tell whether the
    environment variables DATABASE_URL and DATABASE_NAME are set and not
    empty: what was written there from the handle ("Configured", [db.name])
    is overwritten. *)
Theorem test_database_shape (db : option Database)
  (name_attr : Database -> attempt (option value))
  (list_collection_names : Database -> attempt (list string))
  (getenv : string -> option string) :
  let response := test_database db name_attr list_collection_names getenv in
  keys response
  = ["backend"; "database"; "database_url"; "database_name";
     "connection_status"; "collections"]
  /\ lookup response "backend" = Some (VStr "✅ Running")
  /\ lookup response "database_url"
     = Some (VStr (if truthy_opt (getenv "DATABASE_URL")
                   then "✅ Set" else "❌ Not Set"))
  /\ lookup response "database_name"
     = Some (VStr (if truthy_opt (getenv "DATABASE_NAME")
                   then "✅ Set" else "❌ Not Set")).
Proof.
  cbv zeta. unfold test_database.
  destruct db as [handle |]; [| repeat split].
  destruct (name_attr handle) as [attr | e]; [| repeat split].
  destruct (list_collection_names handle); repeat split.
Qed.

(** X15: the "database" field reads "Connected & Working" exactly when a
    store is configured, its name could be read and its collections could
    be listed; without a store it reads "Available but not initialized";
    and "connection_status" reads "Connected" exactly when a store is
    configured and its name could be read. The initial "Not Available" is
    never what the caller sees. *)
Theorem test_database_status (db : option Database)
  (name_attr : Database -> attempt (option value))
  (list_collection_names : Database -> attempt (list string))
  (getenv : string -> option string) :
  let response := test_database db name_attr list_collection_names getenv in
  (lookup response "database" = Some (VStr "✅ Connected & Working")
   <-> exists handle attr names,
         db = Some handle /\ name_attr handle = Done attr
         /\ list_collection_names handle = Done names)
  /\ (db = None ->
      lookup response "database"
      = Some (VStr "⚠️  Available but not initialized"))
  /\ (lookup response "connection_status" = Some (VStr "Connected")
      <-> exists handle attr, db = Some handle /\ name_attr handle = Done attr)
  /\ lookup response "database" <> Some (VStr "❌ Not Available").
Proof.
  cbv zeta. unfold test_database.
  destruct db as [handle |].
  - destruct (name_attr handle) as [attr | e] eqn:Hname.
    + destruct (list_collection_names handle) as [names | e] eqn:Hlist.
      * repeat split; try discriminate; eauto 6.
      * repeat split; try discriminate; eauto.
        intros (h & a & n & [= <-] & _ & Hn). congruence.
    + repeat split; try discriminate.
      * intros (h & a & n & [= <-] & Ha & _). congruence.
      * intros (h & a & [= <-] & Ha). congruence.
  - repeat split; try discriminate.
    + intros (h & a & n & H & _). discriminate.
    + intros (h & a & H & _). discriminate.
Qed.




Lemma test_database_status_witness :
  lookup
    (test_database None (fun _ => Done None) (fun _ => Done [])
       (fun _ => None))
    "database"
  = Some (VStr "⚠️  Available but not initialized").
Proof.
  apply (proj1 (proj2 (test_database_status None (fun _ => Done None)
                         (fun _ => Done []) (fun _ => None)))).
  reflexivity.
Defined.
